(** * License verification server: the [/verify] and [/check_status] routes

    A shallow embedding of the verification core of [bot.py]: the Flask
    routes [verify] and [check_status], the module-level dictionaries they
    read and mutate, and the bot commands: the ones that touch the same
    dictionaries, the admin list, the paginated license listing, the key
    generator and the key exchange.

    Conventions of the embedding:
    - the module globals [machine_bindings], [failed_attempts],
      [banned_users] and the two JSON files are the fields of [State];
    - [time.time()] is a float; it is modelled by exact rationals ([Q]),
      and [int(...)] by truncation toward zero.  One request reads the clock
      at most twice, the readings are [now1] and [now2] of [Env];
    - [requests.post] either delivers the message or raises; which one
      happens is the field [post_ok] of [Env].  An exception leaving a
      route is turned by Flask into the 500 response of [internal_error];
    - the human-readable ["message"] field of the JSON bodies is left out
      of [Response]; every other field is kept. *)

From Stdlib Require Import ZArith QArith Lia Zpow_facts Ascii String.
From stdpp Require Import gmap strings list fin_maps vector.

Local Open Scope string_scope.
Local Open Scope Z_scope.

(** ** Data *)

(** [licenses[user] = {"key": ...}] *)
Record License := mkLicense { key : string }.

(** [failed_attempts[user] = {"count": ..., "penalty_end": ...}] *)
Record PenaltyInfo := mkPenalty { count : Z; penalty_end : Q }.

(** The three webhook messages of [verify]. *)
Inductive Notification :=
| NoteBanned (user_name : string)
| NoteFailed (user_name key : string)
| NoteFirstFailed (user_name key : string).

Record State := mkState {
  licenses : gmap string License;               (* credentials.json *)
  machine_bindings : gmap string string;        (* the global dict *)
  machine_bindings_file : gmap string string;   (* machine_bindings.json *)
  failed_attempts : gmap string PenaltyInfo;
  banned_users : gset string;
  sent : list Notification                      (* delivered to WEBHOOK_URL *)
}.

(** What the outside world contributes to one request. *)
Record Env := mkEnv { now1 : Q; now2 : Q; post_ok : bool }.

(** [request.json] of the two routes; [data.get] gives [None] for a
    missing field. *)
Record VerifyData := mkVerifyData {
  v_username : option string;
  v_key : option string;
  v_machine_id : option string
}.

Record StatusData := mkStatusData {
  c_username : option string;
  c_machine_id : option string
}.

(** The JSON body (without ["message"]) and the HTTP status code. *)
Record Response := mkResponse {
  http : Z;
  status : string;
  penalty : option Z;
  reason : option string
}.

Inductive Exn := ConnectionError | IndexError.

Inductive Outcome :=
| Returned (r : Response)
| Raised (e : Exn).

(** ** Python helpers *)

(** Truthiness of an optional string: [None] and [""] are falsy. *)
Definition truthy (o : option string) : bool :=
  match o with
  | Some s => negb (bool_decide (s = ""))
  | None => false
  end.

(** [int(x)] on a float: truncation toward zero. *)
Definition py_int (x : Q) : Z := Z.quot (Qnum x) (Z.pos (Qden x)).

(** [a > b] on floats. *)
Definition Qgtb (a b : Q) : bool := negb (Qle_bool a b).

(** [l[i]] on a list: negative indices count from the end, anything out
    of range raises [IndexError] (here [None]). *)
Definition py_index {A} (l : list A) (i : Z) : option A :=
  let n := Z.of_nat (length l) in
  if (0 <=? i) && (i <? n) then l !! Z.to_nat i
  else if (- n <=? i) && (i <? 0) then l !! Z.to_nat (n + i)
  else None.

(** ** Module constants *)

Definition penalty_thresholds : list Z := [2; 3; 5; 10; 12].

(** [max_penalty = penalty_thresholds[-1]] *)
Definition max_penalty : Z := default 0 (py_index penalty_thresholds (-1)).

(** ** Responses of the two routes *)

Definition resp_missing : Response := mkResponse 400 "error" None None.
Definition resp_banned : Response := mkResponse 403 "banned" (Some max_penalty) None.
Definition resp_blocked (secs : Z) : Response := mkResponse 429 "error" (Some secs) None.
Definition resp_mismatch : Response := mkResponse 403 "denied" None (Some "machine mismatch").
Definition resp_success : Response := mkResponse 200 "success" None None.
Definition resp_invalid_key : Response := mkResponse 401 "failure" None None.
Definition resp_status_banned : Response := mkResponse 403 "banned" None None.
Definition resp_status_allowed : Response := mkResponse 200 "allowed" None None.
Definition resp_status_denied : Response :=
  mkResponse 403 "denied" None (Some "machine mismatch or not bound").

(** [@app.errorhandler(500)] *)
Definition internal_error : Response := mkResponse 500 "error" None None.

(** What the client receives. *)
Definition respond (o : Outcome) : Response :=
  match o with
  | Returned r => r
  | Raised _ => internal_error
  end.

(** ** State updates *)

Definition set_bindings (b : gmap string string) (s : State) : State :=
  mkState (licenses s) b (machine_bindings_file s) (failed_attempts s)
          (banned_users s) (sent s).

(** [save_machine_bindings(data)]: the file is rewritten in full. *)
Definition save_machine_bindings (data : gmap string string) (s : State) : State :=
  mkState (licenses s) (machine_bindings s) data (failed_attempts s)
          (banned_users s) (sent s).

Definition set_failed (f : gmap string PenaltyInfo) (s : State) : State :=
  mkState (licenses s) (machine_bindings s) (machine_bindings_file s) f
          (banned_users s) (sent s).

Definition set_banned (b : gset string) (s : State) : State :=
  mkState (licenses s) (machine_bindings s) (machine_bindings_file s)
          (failed_attempts s) b (sent s).

Definition set_licenses (l : gmap string License) (s : State) : State :=
  mkState l (machine_bindings s) (machine_bindings_file s)
          (failed_attempts s) (banned_users s) (sent s).

Definition push_sent (n : Notification) (s : State) : State :=
  mkState (licenses s) (machine_bindings s) (machine_bindings_file s)
          (failed_attempts s) (banned_users s) (sent s ++ [n]).

Section Routes.

(** The environment variable read at import time. *)
Variable WEBHOOK_URL : option string.

(** [if WEBHOOK_URL: requests.post(WEBHOOK_URL, json=...)]; [None] when
    the post raises. *)
Definition notify (n : Notification) (w : Env) (s : State) : option State :=
  if truthy WEBHOOK_URL then
    if post_ok w then Some (push_sent n s) else None
  else Some s.

(** The tail of a route after its last state update: notify, then
    return [r]. *)
Definition notify_return (n : Notification) (w : Env) (s : State) (r : Response)
  : State * Outcome :=
  match notify n w s with
  | Some s' => (s', Returned r)
  | None => (s, Raised ConnectionError)
  end.

(** Lines 158-193: the key did not match.  [t] is the clock reading of
    line 177. *)
Definition failed_attempt (s : State) (user_name k : string) (w : Env) (t : Q)
  : State * Outcome :=
  let info0 := default (mkPenalty 0 (inject_Z 0)) (failed_attempts s !! user_name) in
  let info1 := mkPenalty (count info0 + 1) (penalty_end info0) in
  let s1 := set_failed (<[user_name := info1]> (failed_attempts s)) s in
  let attempt_count := count info1 in
  if Z.of_nat (length penalty_thresholds) <? attempt_count then
    let s2 := set_banned ({[user_name]} ∪ banned_users s1) s1 in
    notify_return (NoteBanned user_name) w s2 resp_banned
  else if 1 <? attempt_count then
    let penalty_index := attempt_count - 2 in
    match py_index penalty_thresholds penalty_index with
    | None => (s1, Raised IndexError)
    | Some penalty_duration =>
        let info2 := mkPenalty attempt_count (Qplus t (inject_Z penalty_duration)) in
        let s2 := set_failed (<[user_name := info2]> (failed_attempts s1)) s1 in
        notify_return (NoteFailed user_name k) w s2 (resp_blocked penalty_duration)
    end
  else
    notify_return (NoteFirstFailed user_name k) w s1 resp_invalid_key.

(** [user_name in licenses and licenses[user_name]["key"] == key] *)
Definition key_matches (s : State) (user_name k : string) : bool :=
  match licenses s !! user_name with
  | Some lic => bool_decide (key lic = k)
  | None => false
  end.

(** Lines 142-193: the license check and everything after it. *)
Definition check_license_key (s : State) (user_name k machine_id : string)
    (w : Env) (t : Q) : State * Outcome :=
  if key_matches s user_name k then
    match machine_bindings s !! user_name with
    | None =>
        let b := <[user_name := machine_id]> (machine_bindings s) in
        let s1 := save_machine_bindings b (set_bindings b s) in
        (set_failed (delete user_name (failed_attempts s1)) s1,
         Returned resp_success)
    | Some bound =>
        if bool_decide (bound = machine_id) then
          (set_failed (delete user_name (failed_attempts s)) s,
           Returned resp_success)
        else (s, Returned resp_mismatch)
    end
  else failed_attempt s user_name k w t.

(** Lines 131-193: the route once the three fields are known to be
    present. *)
Definition verify_fields (s : State) (user_name k machine_id : string) (w : Env)
  : State * Outcome :=
  if bool_decide (user_name ∈ banned_users s) then (s, Returned resp_banned)
  else
    match failed_attempts s !! user_name with
    | Some penalty_info =>
        if Qgtb (penalty_end penalty_info) (now1 w) then
          let remaining_time :=
            py_int (Qminus (penalty_end penalty_info) (now2 w)) in
          (s, Returned (resp_blocked remaining_time))
        else check_license_key s user_name k machine_id w (now2 w)
    | None => check_license_key s user_name k machine_id w (now1 w)
    end.

(** [POST /verify] *)
Definition verify (s : State) (data : VerifyData) (w : Env) : State * Outcome :=
  if negb (truthy (v_username data)) || negb (truthy (v_key data))
     || negb (truthy (v_machine_id data)) then (s, Returned resp_missing)
  else
    verify_fields s (default "" (v_username data)) (default "" (v_key data))
                  (default "" (v_machine_id data)) w.

(** [POST /check_status] *)
Definition check_status (s : State) (data : StatusData) : State * Outcome :=
  if negb (truthy (c_username data)) || negb (truthy (c_machine_id data))
  then (s, Returned resp_missing)
  else
    let user_name := default "" (c_username data) in
    let machine_id := default "" (c_machine_id data) in
    if bool_decide (user_name ∈ banned_users s)
    then (s, Returned resp_status_banned)
    else
      match machine_bindings s !! user_name with
      | Some bound =>
          if bool_decide (bound = machine_id)
          then (s, Returned resp_status_allowed)
          else (s, Returned resp_status_denied)
      | None => (s, Returned resp_status_denied)
      end.

(** ** Bot commands that touch the same state *)

(** [!generate]; [license_key] is the random key drawn by
    [generate_license_key]. *)
Definition generate_license (s : State) (username license_key : string) : State :=
  match licenses s !! username with
  | Some _ => s
  | None => set_licenses (<[username := mkLicense license_key]> (licenses s)) s
  end.

Definition delete_license (s : State) (username : string) : State :=
  match licenses s !! username with
  | None => s
  | Some _ => set_licenses (delete username (licenses s)) s
  end.

Definition update_license (s : State) (username new_key : string) : State :=
  match licenses s !! username with
  | None => s
  | Some _ => set_licenses (<[username := mkLicense new_key]> (licenses s)) s
  end.

Definition clear_licenses (s : State) : State := set_licenses ∅ s.

(** [!import_licenses]; [backup] is the content of the backup file,
    [None] when the file does not exist. *)
Definition import_licenses (s : State) (backup : option (gmap string License)) : State :=
  match backup with
  | None => s
  | Some l => set_licenses l s
  end.

Definition reset_penalty (s : State) (username : string) : State :=
  match failed_attempts s !! username with
  | Some _ => set_failed (delete username (failed_attempts s)) s
  | None => s
  end.

Definition unban_user (s : State) (username : string) : State :=
  if bool_decide (username ∈ banned_users s)
  then set_banned (banned_users s ∖ {[username]}) s
  else s.

Definition ban_user (s : State) (username : string) : State :=
  set_banned ({[username]} ∪ banned_users s) s.

(** [!failed_attempts]: the count shown to the operator, "no failed
    attempts" being zero. *)
Definition view_failed_attempts (s : State) (username : string) : Z :=
  match failed_attempts s !! username with
  | Some info => count info
  | None => 0
  end.

(** ** Runs of the server *)

Inductive Event :=
| Verify (data : VerifyData) (w : Env)
| CheckStatus (data : StatusData)
| Generate (username license_key : string)
| DeleteLicense (username : string)
| UpdateLicense (username new_key : string)
| ClearLicenses
| ImportLicenses (backup : option (gmap string License))
| ResetPenalty (username : string)
| UnbanUser (username : string)
| BanUser (username : string).

Definition step (s : State) (e : Event) : State :=
  match e with
  | Verify data w => fst (verify s data w)
  | CheckStatus data => fst (check_status s data)
  | Generate u k => generate_license s u k
  | DeleteLicense u => delete_license s u
  | UpdateLicense u k => update_license s u k
  | ClearLicenses => clear_licenses s
  | ImportLicenses b => import_licenses s b
  | ResetPenalty u => reset_penalty s u
  | UnbanUser u => unban_user s u
  | BanUser u => ban_user s u
  end.

Fixpoint run (s : State) (evs : list Event) : State :=
  match evs with
  | [] => s
  | e :: evs' => run (step s e) evs'
  end.

(** The state right after import: both JSON files as found on disk,
    nobody penalised, nobody banned. *)
Definition boot (lic : gmap string License) (bindings : gmap string string) : State :=
  mkState lic bindings bindings ∅ ∅ [].

Inductive reachable : State → Prop :=
| reachable_boot lic bindings : reachable (boot lic bindings)
| reachable_step s e : reachable s → reachable (step s e).

(** ** Vocabulary of the statements *)

(** A request carrying all three fields. *)
Definition verify_req (u k m : string) : VerifyData :=
  mkVerifyData (Some u) (Some k) (Some m).

Definition status_req (u m : string) : StatusData :=
  mkStatusData (Some u) (Some m).

(** The test of lines 136-138 at clock reading [t]. *)
Definition under_penalty (s : State) (u : string) (t : Q) : bool :=
  match failed_attempts s !! u with
  | Some penalty_info => Qgtb (penalty_end penalty_info) t
  | None => false
  end.

(** The notification, if one is attempted, goes through. *)
Definition notifier_ok (w : Env) : bool := negb (truthy WEBHOOK_URL) || post_ok w.

(** A series of [/verify] requests for one user, each with its own
    key, machine identifier and environment. *)
Fixpoint verify_series (s : State) (u : string) (calls : list (string * string * Env))
  : State * list Outcome :=
  match calls with
  | [] => (s, [])
  | (k, m, w) :: rest =>
      let r := verify s (verify_req u k m) w in
      let rs := verify_series (fst r) u rest in
      (fst rs, snd r :: snd rs)
  end.

(** Every request of the series is a counted failure: well formed, with
    a key that does not match, not answered by the penalty test of
    lines 136-140, and with a notification that does not raise. *)
Fixpoint counted_failures (s : State) (u : string) (calls : list (string * string * Env))
  : Prop :=
  match calls with
  | [] => True
  | (k, m, w) :: rest =>
      k ≠ "" ∧ m ≠ "" ∧ key_matches s u k = false ∧ notifier_ok w = true ∧
      (u ∈ banned_users s ∨ under_penalty s u (now1 w) = false) ∧
      counted_failures (fst (verify s (verify_req u k m) w)) u rest
  end.

(** The answer to the failure number [i], counted from zero. *)
Definition ladder (i : nat) : Response :=
  match i with
  | 0%nat => resp_invalid_key
  | 1%nat => resp_blocked 2
  | 2%nat => resp_blocked 3
  | 3%nat => resp_blocked 5
  | 4%nat => resp_blocked 10
  | _ => resp_banned
  end.

(** Where a user stands after [i] counted failures. *)
Definition rung (s : State) (u : string) (i : nat) : Prop :=
  if (i <=? 5)%nat
  then (u ∉ banned_users s) ∧ view_failed_attempts s u = Z.of_nat i
  else u ∈ banned_users s.

(** ** Sample data *)

Definition hook : option string := Some "https://hooks.example/operator".

(** One license, nobody bound: the state right after start. *)
Definition fresh_shop : State := boot {["alice" := mkLicense "GOOD-KEY"]} ∅.

(** Clock readings are seconds since the epoch. *)
Definition epoch : Z := 1700000000.
Definition clock (secs : Z) : Q := inject_Z (epoch + secs).

(** Both readings of a request at [t]; [delivered] tells whether the
    webhook takes the post. *)
Definition at_time (t : Q) (delivered : bool) : Env := mkEnv t t delivered.

Definition wrong_key : VerifyData := verify_req "alice" "BAD-KEY" "M1".
Definition right_key : VerifyData := verify_req "alice" "GOOD-KEY" "M1".

(** Seven wrong keys, a hundred seconds apart. *)
Definition seven_wrong_keys : list (string * string * Env) :=
  [("BAD-KEY", "M1", at_time (clock 100) true);
   ("BAD-KEY", "M1", at_time (clock 200) true);
   ("BAD-KEY", "M1", at_time (clock 300) true);
   ("BAD-KEY", "M1", at_time (clock 400) true);
   ("BAD-KEY", "M1", at_time (clock 500) true);
   ("BAD-KEY", "M1", at_time (clock 600) true);
   ("BAD-KEY", "M1", at_time (clock 700) true)].

(** The first five of them as events, and the sixth. *)
Definition five_failures : list Event :=
  [Verify wrong_key (at_time (clock 100) true);
   Verify wrong_key (at_time (clock 200) true);
   Verify wrong_key (at_time (clock 300) true);
   Verify wrong_key (at_time (clock 400) true);
   Verify wrong_key (at_time (clock 500) true)].

Definition six_failures : list Event :=
  five_failures ++ [Verify wrong_key (at_time (clock 600) true)].

(** What an operator and a client may do after a ban, short of
    unbanning alice. *)
Definition after_the_ban : list Event :=
  [Verify right_key (at_time (clock 700) true);
   ResetPenalty "alice";
   CheckStatus (status_req "alice" "M1");
   BanUser "bob";
   UnbanUser "bob"].

(** Alice verifies from machine M1 and is bound to it. *)
Definition first_success : list Event :=
  [Verify right_key (at_time (clock 100) true)].

(** Two failures, the second half a second after the first: the
    penalty of two seconds ends at [epoch + 5/2]. *)
Definition two_failures : list Event :=
  [Verify wrong_key (at_time (clock 0) true);
   Verify wrong_key (at_time (clock 0 + (1 # 2)) true)].

(** ** The remaining bot commands *)

(** [!export_licenses]: what is written to [licenses_backup.json]. *)
Definition export_licenses (s : State) : gmap string License := licenses s.

(** *** The admin list *)

(** The global list [admins] and [admins.json]; the file may be absent. *)
Record Admins := mkAdmins {
  admins : list Z;
  admins_file : option (list Z)
}.

Definition load_admins (file : option (list Z)) (ADMIN_ID : Z) : list Z :=
  match file with
  | Some l => l
  | None => [ADMIN_ID]
  end.

(** The admin state right after import; [load_admins] does not create
    the file. *)
Definition boot_admins (file : option (list Z)) (ADMIN_ID : Z) : Admins :=
  mkAdmins (load_admins file ADMIN_ID) file.

(** [l.remove(x)]: the first occurrence goes.  Python raises when there
    is none; [remove_admin] tests membership first. *)
Fixpoint list_remove (x : Z) (l : list Z) : list Z :=
  match l with
  | [] => []
  | y :: l' => if bool_decide (y = x) then l' else y :: list_remove x l'
  end.

(** [save_admins()]: the file receives the list as it is. *)
Definition save_admins (a : Admins) : Admins := mkAdmins (admins a) (Some (admins a)).

Definition add_admin (a : Admins) (new_admin_id : Z) : Admins :=
  if bool_decide (new_admin_id ∈ admins a) then a
  else save_admins (mkAdmins (admins a ++ [new_admin_id]) (admins_file a)).

Definition remove_admin (a : Admins) (admin_id : Z) : Admins :=
  if bool_decide (admin_id ∈ admins a)
  then save_admins (mkAdmins (list_remove admin_id (admins a)) (admins_file a))
  else a.

(** [is_admin(ctx)], on the author's id. *)
Definition is_admin (a : Admins) (author_id : Z) : bool :=
  bool_decide (author_id ∈ admins a).

(** *** The paginated listing *)

(** [l[start:stop]]: negative bounds count from the end, every bound is
    clamped to the list. *)
Definition py_slice {A} (l : list A) (start stop : Z) : list A :=
  let n := Z.of_nat (length l) in
  let clamp i := if i <? 0 then Z.max (n + i) 0 else Z.min i n in
  take (Z.to_nat (clamp stop - clamp start)) (drop (Z.to_nat (clamp start)) l).

Inductive PageReply :=
| InvalidPage (total_pages : Z)
| Page (page total_pages : Z) (licenses_list : list (string * License)).

(** [!list_licenses]; [items] is [list(licenses.items())], the entries in
    the order of the file. *)
Definition list_licenses (items : list (string * License)) (page : Z) : PageReply :=
  let items_per_page := 10 in
  let total_pages := (Z.of_nat (length items) + items_per_page - 1) `div` items_per_page in
  if (page <? 1) || (total_pages <? page) then InvalidPage total_pages
  else
    let start := (page - 1) * items_per_page in
    let end_ := start + items_per_page in
    Page page total_pages (py_slice items start end_).

(** *** The key exchange *)

(** [pow(x, e, m)] for a non-negative exponent and a positive modulus. *)
Definition py_pow (x e m : Z) : Z := (x ^ e) `mod` m.

Inductive ExchangeReply :=
| ExchangeResult (B K : Z)
| ExchangeError.

(** [!unban_app], the function [diffie_hellman]; [b] is the number drawn
    by [random.randint(1, p - 1)], which raises on an empty range; the
    [except] clause turns that into the error message. *)
Definition diffie_hellman (p g A : Z) (b : Z) : ExchangeReply :=
  if p - 1 <? 1 then ExchangeError
  else ExchangeResult (py_pow g b p) (py_pow A b p).

(** *** The key generator *)

(** [string.ascii_uppercase + string.digits] *)
Definition key_alphabet : list ascii :=
  list_ascii_of_string "ABCDEFGHIJKLMNOPQRSTUVWXYZ0123456789".

(** One pick of [random.choices] out of the 36 characters. *)
Definition choice (i : fin 36) : ascii := nth (fin_to_nat i) key_alphabet "A"%char.

(** [generate_license_key()]; [picks] are the six times six positions
    drawn by [random.choices(..., k=6)]. *)
Definition generate_license_key (picks : vec (vec (fin 36) 6) 6) : string :=
  String.concat "-"
    (map (λ group, string_of_list_ascii (map choice (vec_to_list group)))
         (vec_to_list picks)).

(** *** More sample data *)

Definition sample_picks : vec (vec (fin 36) 6) 6 :=
  [# [# 0%fin; 1%fin; 2%fin; 3%fin; 4%fin; 5%fin];
     [# 5%fin; 4%fin; 3%fin; 2%fin; 1%fin; 0%fin];
     [# 0%fin; 0%fin; 0%fin; 0%fin; 0%fin; 0%fin];
     [# 9%fin; 8%fin; 7%fin; 6%fin; 5%fin; 4%fin];
     [# 1%fin; 3%fin; 5%fin; 7%fin; 9%fin; 2%fin];
     [# 2%fin; 4%fin; 6%fin; 8%fin; 1%fin; 3%fin]].

(** Twenty-three licenses, as a listing has them. *)
Definition many_items : list (string * License) :=
  map (λ i : nat, (String (ascii_of_nat (65 + i)) "", mkLicense "K")) (seq 0 23).

Definition two_admins : Admins := boot_admins (Some [11; 22]) 0.

(** A request without its key. *)
Definition keyless : VerifyData := mkVerifyData (Some "alice") None (Some "M1").


(** A server that knows nobody. *)
Definition empty_shop : State := boot ∅ ∅.

(** ** Basic facts *)

Lemma Qgtb_true (a b : Q) : Qgtb a b = true ↔ (b < a)%Q.
Proof.
  unfold Qgtb. rewrite negb_true_iff, <- not_true_iff_false, Qle_bool_iff.
  split; [apply Qnot_le_lt | apply Qlt_not_le].
Qed.

Lemma truthy_Some (u : string) : u ≠ "" → truthy (Some u) = true.
Proof. intros Hu. simpl. by rewrite bool_decide_eq_false_2. Qed.

Lemma verify_present s u k m w :
  u ≠ "" → k ≠ "" → m ≠ "" →
  verify s (verify_req u k m) w = verify_fields s u k m w.
Proof.
  intros Hu Hk Hm. unfold verify, verify_req. cbn [v_username v_key v_machine_id].
  by rewrite !truthy_Some.
Qed.

Lemma verify_fields_banned s u k m w :
  u ∈ banned_users s → verify_fields s u k m w = (s, Returned resp_banned).
Proof. intros Hb. unfold verify_fields. by rewrite bool_decide_eq_true_2. Qed.

(** Past the two guards of lines 131-140 the route is the license check,
    at one of the two clock readings. *)
Lemma verify_fields_open s u k m w :
  u ∉ banned_users s → under_penalty s u (now1 w) = false →
  ∃ t, verify_fields s u k m w = check_license_key s u k m w t.
Proof.
  intros Hb Hp. unfold verify_fields, under_penalty in *.
  rewrite bool_decide_eq_false_2 by done.
  destruct (failed_attempts s !! u) as [p|].
  - rewrite Hp. by exists (now2 w).
  - by exists (now1 w).
Qed.

Lemma state_eta s :
  mkState (licenses s) (machine_bindings s) (machine_bindings_file s)
          (failed_attempts s) (banned_users s) (sent s) = s.
Proof. by destruct s. Qed.

(** ** The status route *)

(** C8. [check_status] never changes the state, whatever the request.
    On a request carrying both fields it answers banned for a user of the
    ban set; otherwise allowed exactly when a binding exists and equals the
    submitted machine identifier, and denied in every other case.  For a
    user without binding the answer is never allowed, and it is denied
    unless the user is banned. *)
Theorem check_status_pure_read (s : State) (data : StatusData) :
  fst (check_status s data) = s ∧
  ∀ u m, data = status_req u m → u ≠ "" → m ≠ "" →
    (u ∈ banned_users s →
       snd (check_status s data) = Returned resp_status_banned) ∧
    (u ∉ banned_users s → machine_bindings s !! u = Some m →
       snd (check_status s data) = Returned resp_status_allowed) ∧
    (u ∉ banned_users s → machine_bindings s !! u ≠ Some m →
       snd (check_status s data) = Returned resp_status_denied) ∧
    (machine_bindings s !! u = None →
       snd (check_status s data) ≠ Returned resp_status_allowed ∧
       (u ∉ banned_users s →
          snd (check_status s data) = Returned resp_status_denied)).
Proof.
  split.
  - unfold check_status.
    repeat (case_match; try reflexivity).
  - intros u m -> Hu Hm. unfold check_status, status_req.
    cbn [c_username c_machine_id]. rewrite !truthy_Some by done.
    cbn [negb orb default from_option id].
    split; [|split; [|split]].
    + intros Hb. by rewrite bool_decide_eq_true_2.
    + intros Hb Hl. rewrite bool_decide_eq_false_2, Hl by done.
      by rewrite bool_decide_eq_true_2.
    + intros Hb Hl. rewrite bool_decide_eq_false_2 by done.
      destruct (machine_bindings s !! u) as [b|] eqn:E; [|done].
      rewrite bool_decide_eq_false_2; [done|congruence].
    + intros Hl. rewrite Hl. split.
      * by case_bool_decide.
      * intros Hb. by rewrite bool_decide_eq_false_2.
Qed.

(** ** What the routes never do *)

Ltac unfold_routes :=
  unfold verify, verify_fields, check_license_key, failed_attempt,
    notify_return, notify, check_status.

Ltac unfold_commands :=
  unfold generate_license, delete_license, update_license, clear_licenses,
    import_licenses, reset_penalty, unban_user, ban_user.

(** [verify] never writes the license file. *)
Lemma verify_licenses s data w : licenses (fst (verify s data w)) = licenses s.
Proof. unfold_routes. repeat case_match; by simplify_eq/=. Qed.

(** [verify] never removes anybody from the ban set. *)
Lemma verify_banned_mono s data w u :
  u ∈ banned_users s → u ∈ banned_users (fst (verify s data w)).
Proof.
  intros Hu. unfold_routes. repeat case_match; simplify_eq/=; try done; set_solver.
Qed.

Lemma check_status_state s data : fst (check_status s data) = s.
Proof. unfold check_status. repeat case_match; reflexivity. Qed.

(** Only [!unban_user u] takes [u] out of the ban set. *)
Lemma step_keeps_ban s e u :
  e ≠ UnbanUser u → u ∈ banned_users s → u ∈ banned_users (step s e).
Proof.
  intros He Hu. destruct e; cbn [step].
  - by apply verify_banned_mono.
  - by rewrite check_status_state.
  - unfold_commands. by case_match.
  - unfold_commands. by case_match.
  - unfold_commands. by case_match.
  - done.
  - unfold_commands. by case_match.
  - unfold_commands. by case_match.
  - unfold_commands. case_bool_decide; [|done]. simpl.
    assert (username ≠ u) by congruence. set_solver.
  - unfold_commands. simpl. set_solver.
Qed.

Lemma run_keeps_ban evs : ∀ s u,
  UnbanUser u ∉ evs → u ∈ banned_users s → u ∈ banned_users (run s evs).
Proof.
  induction evs as [|e evs IH]; intros s u Hn Hu; [done|].
  cbn [run]. apply IH.
  - intros H. apply Hn. by right.
  - apply step_keeps_ban; [|done]. intros ->. apply Hn. by left.
Qed.

(** ** Banned users *)

(** C2. Once a user is in the ban set, and as long as no [!unban_user]
    for that user is among the events that follow, every [/verify] and
    every [/check_status] request for that user is answered banned,
    whatever key and machine identifier it carries and whatever the license
    file and the bindings hold, and leaves the state as it was. *)
Theorem banned_until_unbanned (s : State) (u : string) (evs : list Event) :
  u ≠ "" → u ∈ banned_users s → UnbanUser u ∉ evs →
  u ∈ banned_users (run s evs) ∧
  ∀ k m w, k ≠ "" → m ≠ "" →
    verify (run s evs) (verify_req u k m) w = (run s evs, Returned resp_banned) ∧
    check_status (run s evs) (status_req u m)
      = (run s evs, Returned resp_status_banned).
Proof.
  intros Hu Hb Hn.
  pose proof (run_keeps_ban evs s u Hn Hb) as Hb'.
  split; [done|]. intros k m w Hk Hm. split.
  - rewrite verify_present by done. by apply verify_fields_banned.
  - unfold check_status, status_req. cbn [c_username c_machine_id].
    rewrite !truthy_Some by done. cbn [negb orb default from_option id].
    by rewrite bool_decide_eq_true_2.
Qed.

(** ** Active penalties *)

(** [int] of a non-negative float is its whole part. *)
Lemma py_int_whole_part (x : Q) :
  (0 <= x)%Q →
  (inject_Z (py_int x) <= x)%Q ∧ (x < inject_Z (py_int x + 1))%Q.
Proof.
  destruct x as [a b]. unfold Qle, Qlt, py_int. cbn.
  intros Ha. rewrite Z.mul_1_r in Ha |- *.
  rewrite Z.quot_div_nonneg by lia.
  pose proof (Z.div_mod a (Z.pos b) ltac:(lia)) as Hdm.
  pose proof (Z.mod_pos_bound a (Z.pos b) ltac:(lia)) as Hmod.
  split; nia.
Qed.

(** C5, as the code has it. A request for a user who is not banned and
    whose penalty is still running at the test of line 138 is answered
    rate-limited, the seconds being [int(penalty_end - now2)]: the time left
    at the second clock reading, cut to whole seconds.  The answer does not
    depend on the license file or on the bindings, the attempt is not
    counted, and no part of the state changes. *)
Theorem active_penalty_blocks (s : State) (u k m : string) (w : Env)
    (info : PenaltyInfo) :
  u ≠ "" → k ≠ "" → m ≠ "" →
  u ∉ banned_users s →
  failed_attempts s !! u = Some info →
  (now1 w < penalty_end info)%Q →
  verify s (verify_req u k m) w
    = (s, Returned (resp_blocked (py_int (penalty_end info - now2 w)))) ∧
  ((now2 w <= penalty_end info)%Q →
     (inject_Z (py_int (penalty_end info - now2 w))
        <= penalty_end info - now2 w)%Q ∧
     (penalty_end info - now2 w
        < inject_Z (py_int (penalty_end info - now2 w) + 1))%Q).
Proof.
  intros Hu Hk Hm Hb Hf Hlt. split.
  - rewrite verify_present by done. unfold verify_fields.
    rewrite bool_decide_eq_false_2, Hf by done.
    apply Qgtb_true in Hlt. by rewrite Hlt.
  - intros Hle. apply py_int_whole_part.
    by apply -> Qle_minus_iff.
Qed.

(** ** Matching key *)

(** C6. A request whose key matches while the user is bound to another
    machine never changes the state, so the penalty tracker keeps every
    entry as it was; once past the ban and penalty guards of lines 131-140
    the answer is denied with reason "machine mismatch". *)
Theorem machine_mismatch_denied (s : State) (u k m bound : string) (w : Env) :
  u ≠ "" → k ≠ "" → m ≠ "" →
  key_matches s u k = true →
  machine_bindings s !! u = Some bound → bound ≠ m →
  fst (verify s (verify_req u k m) w) = s ∧
  failed_attempts (fst (verify s (verify_req u k m) w)) = failed_attempts s ∧
  (u ∉ banned_users s → under_penalty s u (now1 w) = false →
     verify s (verify_req u k m) w = (s, Returned resp_mismatch)).
Proof.
  intros Hu Hk Hm Hkey Hbound Hne.
  rewrite verify_present by done.
  assert (Hc : ∀ t, check_license_key s u k m w t = (s, Returned resp_mismatch)).
  { intros t. unfold check_license_key. rewrite Hkey, Hbound.
    by rewrite bool_decide_eq_false_2. }
  assert (Hs : fst (verify_fields s u k m w) = s).
  { unfold verify_fields. repeat case_match; try done; by rewrite Hc. }
  split; [done|]. split; [by rewrite Hs|].
  intros Hb Hp. destruct (verify_fields_open s u k m w Hb Hp) as [t ->].
  apply Hc.
Qed.

(** C7. For a user who is neither banned nor under a running penalty, a
    request with the matching key from a machine the binding allows (no
    binding yet, or the same machine) is answered success; the user's entry
    leaves the penalty tracker, so the failure count shown is zero whatever
    it was; the user is bound to the machine afterwards, and when there was
    no binding the new one is in the dictionary and in the file written from
    it.  Licenses, ban set and sent notifications stay as they were. *)
Theorem success_clears_penalty (s : State) (u k m : string) (w : Env) :
  u ≠ "" → k ≠ "" → m ≠ "" →
  u ∉ banned_users s → under_penalty s u (now1 w) = false →
  key_matches s u k = true →
  machine_bindings s !! u = None ∨ machine_bindings s !! u = Some m →
  snd (verify s (verify_req u k m) w) = Returned resp_success ∧
  failed_attempts (fst (verify s (verify_req u k m) w))
    = delete u (failed_attempts s) ∧
  view_failed_attempts (fst (verify s (verify_req u k m) w)) u = 0 ∧
  machine_bindings (fst (verify s (verify_req u k m) w)) !! u = Some m ∧
  (machine_bindings s !! u = None →
     machine_bindings (fst (verify s (verify_req u k m) w))
       = <[u := m]> (machine_bindings s) ∧
     machine_bindings_file (fst (verify s (verify_req u k m) w))
       = <[u := m]> (machine_bindings s)) ∧
  (machine_bindings s !! u = Some m →
     machine_bindings (fst (verify s (verify_req u k m) w)) = machine_bindings s ∧
     machine_bindings_file (fst (verify s (verify_req u k m) w))
       = machine_bindings_file s) ∧
  licenses (fst (verify s (verify_req u k m) w)) = licenses s ∧
  banned_users (fst (verify s (verify_req u k m) w)) = banned_users s ∧
  sent (fst (verify s (verify_req u k m) w)) = sent s.
Proof.
  intros Hu Hk Hm Hb Hp Hkey Hbind.
  rewrite verify_present by done.
  destruct (verify_fields_open s u k m w Hb Hp) as [t ->].
  unfold check_license_key, view_failed_attempts. rewrite Hkey.
  destruct Hbind as [Hn | Hs]; rewrite ?Hn, ?Hs.
  - simpl. rewrite lookup_delete_eq, lookup_insert_eq.
    repeat split; try done; intros ?; congruence.
  - rewrite bool_decide_eq_true_2 by done. simpl.
    rewrite lookup_delete_eq.
    repeat split; try done; intros ?; congruence.
Qed.

(** The only way to a success answer. *)
Lemma verify_fields_success_inv s u k m w s' :
  verify_fields s u k m w = (s', Returned resp_success) →
  (u ∉ banned_users s) ∧ key_matches s u k = true ∧
  ((machine_bindings s !! u = None ∧
    s' = mkState (licenses s) (<[u := m]> (machine_bindings s))
           (<[u := m]> (machine_bindings s)) (delete u (failed_attempts s))
           (banned_users s) (sent s)) ∨
   (machine_bindings s !! u = Some m ∧
    s' = set_failed (delete u (failed_attempts s)) s)).
Proof.
  unfold verify_fields, check_license_key, failed_attempt, notify_return, notify.
  intros H.
  repeat case_match; simplify_eq/=;
    (split; [by eapply bool_decide_eq_false_1|]); (split; [done|]);
    first [ by left | right; split; [|done];
            match goal with H : bool_decide _ = true |- _ =>
              apply bool_decide_eq_true in H; by subst end ].
Qed.

(** C10. A [/verify] request answered success, sent again right away
    (with whatever clock readings), is answered success again and leaves
    every part of the state as the first call left it. *)
Theorem verify_success_idempotent (s s' : State) (data : VerifyData) (w w' : Env) :
  verify s data w = (s', Returned resp_success) →
  verify s' data w' = (s', Returned resp_success).
Proof.
  unfold verify. case_match; [intros; simplify_eq|].
  set (u := default "" (v_username data)).
  set (k := default "" (v_key data)).
  set (m := default "" (v_machine_id data)).
  intros Hv. apply verify_fields_success_inv in Hv as (Hb & Hkey & Hcase).
  assert (Hfa : failed_attempts s' !! u = None).
  { destruct Hcase as [[_ ->] | [_ ->]]; simpl; apply lookup_delete_eq. }
  assert (Hbs : banned_users s' = banned_users s).
  { by destruct Hcase as [[_ ->] | [_ ->]]. }
  assert (Hl : key_matches s' u k = true).
  { unfold key_matches in *. by destruct Hcase as [[_ ->] | [_ ->]]. }
  assert (Hm : machine_bindings s' !! u = Some m).
  { destruct Hcase as [[_ ->] | [? ->]]; simpl; [apply lookup_insert_eq|done]. }
  unfold verify_fields, check_license_key.
  rewrite Hbs, bool_decide_eq_false_2, Hfa, Hl, Hm by done.
  rewrite bool_decide_eq_true_2 by done.
  rewrite delete_id by done.
  unfold set_failed. by rewrite state_eta.
Qed.

(** ** Failed attempts *)

Lemma count_default s u :
  count (default (mkPenalty 0 (inject_Z 0)) (failed_attempts s !! u))
  = view_failed_attempts s u.
Proof. unfold view_failed_attempts. by destruct (failed_attempts s !! u). Qed.

(** The tier lookup of line 176 never raises. *)
Lemma tier_in_range (c : Z) :
  1 < c → c ≤ Z.of_nat (length penalty_thresholds) →
  ∃ d, py_index penalty_thresholds (c - 2) = Some d.
Proof.
  cbn [penalty_thresholds length Z.of_nat]. intros H1 H2.
  assert (c = 2 ∨ c = 3 ∨ c = 4 ∨ c = 5) as [-> | [-> | [-> | ->]]] by lia;
    eexists; reflexivity.
Qed.

Lemma notify_return_ok n w s r :
  notifier_ok w = true →
  snd (notify_return n w s r) = Returned r ∧
  licenses (fst (notify_return n w s r)) = licenses s ∧
  failed_attempts (fst (notify_return n w s r)) = failed_attempts s ∧
  banned_users (fst (notify_return n w s r)) = banned_users s.
Proof.
  unfold notifier_ok, notify_return, notify.
  destruct (truthy WEBHOOK_URL), (post_ok w); simpl; try done.
Qed.

(** Replaces the notifying tail of a route by its result when the
    notification is known to go through. *)
Ltac notified Hn :=
  match goal with
  | |- context [notify_return ?n ?w ?s ?r] =>
      let Ho := fresh "Ho" in
      let Hf := fresh "Hf" in
      let Hb := fresh "Hb" in
      destruct (notify_return_ok n w s r Hn) as (Ho & _ & Hf & Hb);
      unfold view_failed_attempts; rewrite Ho, Hf, Hb; simpl;
      rewrite lookup_insert_eq; simpl
  end.

(** The failure number [i] (counted from zero) of a user who is not
    banned: the answer is the rung [i] of the ladder, the count goes up by
    one, and the user is banned exactly from the failure number five on. *)
Lemma failure_number (i : nat) s u k w t :
  u ∉ banned_users s →
  view_failed_attempts s u = Z.of_nat i →
  notifier_ok w = true →
  snd (failed_attempt s u k w t) = Returned (ladder i) ∧
  view_failed_attempts (fst (failed_attempt s u k w t)) u = Z.of_nat (S i) ∧
  (u ∈ banned_users (fst (failed_attempt s u k w t)) ↔ (5 ≤ i)%nat).
Proof.
  intros Hnb Hc Hn. unfold failed_attempt. cbn [count].
  rewrite count_default, Hc.
  destruct (Z.ltb_spec (Z.of_nat (length penalty_thresholds)) (Z.of_nat i + 1))
    as [Hlt|Hge].
  - cbn [penalty_thresholds length] in Hlt. notified Hn.
    split; [|split; [lia|]].
    + do 5 (destruct i as [|i]; [lia|]). done.
    + split; [lia|]. intros _. apply elem_of_union_l. by apply elem_of_singleton.
  - cbn [penalty_thresholds length] in Hge.
    destruct (Z.ltb_spec 1 (Z.of_nat i + 1)) as [H1|H1].
    + destruct (tier_in_range (Z.of_nat i + 1)) as [d Hd]; [lia|simpl; lia|].
      rewrite Hd. notified Hn.
      split; [|split; [lia|]].
      * assert (i = 1 ∨ i = 2 ∨ i = 3 ∨ i = 4)%nat as [-> | [-> | [-> | ->]]]
          by lia; vm_compute in Hd; by simplify_eq.
      * split; [done|lia].
    + assert (i = 0%nat) as -> by lia. notified Hn.
      split; [done|]. split; [done|]. split; [done|lia].
Qed.

(** A request with a key that does not match, past the two guards. *)
Lemma verify_failure_number (i : nat) s u k m w :
  u ≠ "" → k ≠ "" → m ≠ "" →
  u ∉ banned_users s → under_penalty s u (now1 w) = false →
  key_matches s u k = false →
  view_failed_attempts s u = Z.of_nat i →
  notifier_ok w = true →
  snd (verify s (verify_req u k m) w) = Returned (ladder i) ∧
  view_failed_attempts (fst (verify s (verify_req u k m) w)) u = Z.of_nat (S i) ∧
  (u ∈ banned_users (fst (verify s (verify_req u k m) w)) ↔ (5 ≤ i)%nat).
Proof.
  intros Hu Hk Hm Hb Hp Hkey Hc Hn.
  rewrite verify_present by done.
  destruct (verify_fields_open s u k m w Hb Hp) as [t ->].
  unfold check_license_key. rewrite Hkey. by apply failure_number.
Qed.

Lemma series_from_rung (u : string) (calls : list (string * string * Env)) :
  u ≠ "" →
  ∀ s i, rung s u i → counted_failures s u calls →
    snd (verify_series s u calls)
      = map (λ j, Returned (ladder j)) (seq i (length calls)) ∧
    rung (fst (verify_series s u calls)) u (i + length calls).
Proof.
  intros Hu. induction calls as [|[[k m] w] calls IH]; intros s i Hr Hc.
  - simpl. by rewrite Nat.add_0_r.
  - cbn [counted_failures] in Hc.
    destruct Hc as (Hk & Hm & Hkey & Hn & Hguard & Hrest).
    cbn [verify_series length seq map fst snd].
    assert (Hstep : snd (verify s (verify_req u k m) w) = Returned (ladder i) ∧
                    rung (fst (verify s (verify_req u k m) w)) u (S i)).
    { unfold rung in Hr |- *.
      destruct (Nat.leb_spec i 5) as [Hi|Hi].
      - destruct Hr as [Hb Hcount].
        destruct Hguard as [?|Hp]; [done|].
        destruct (verify_failure_number i s u k m w) as (Ho & Hc' & Hb');
          try done.
        split; [done|].
        destruct (Nat.leb_spec (S i) 5); [split; [|done]|]; rewrite Hb'; lia.
      - rewrite verify_present, verify_fields_banned by done. cbn [fst snd].
        destruct (Nat.leb_spec (S i) 5); [lia|]. split; [|done].
        do 6 (destruct i as [|i]; [lia|]). done. }
    destruct Hstep as [Ho Hr'].
    destruct (IH _ _ Hr' Hrest) as [Hos Hfinal].
    rewrite Ho, Hos. split; [done|].
    by replace (i + S (length calls))%nat with (S i + length calls)%nat by lia.
Qed.

(** C1, as the code has it. A user with no penalty entry and no ban
    sends requests whose key never matches, each one after the penalty of
    the one before has run out, the notifications going through.  The
    answers are, in order: invalid key (401, no penalty), then rate-limited
    with 2, 3, 5 and 10 seconds, and banned from the sixth request on; from
    the sixth request on the user is in the ban set. *)
Theorem failure_ladder (s : State) (u : string) (calls : list (string * string * Env)) :
  u ≠ "" →
  u ∉ banned_users s → failed_attempts s !! u = None →
  counted_failures s u calls →
  snd (verify_series s u calls)
    = map (λ i, Returned (ladder i)) (seq 0 (length calls)) ∧
  ((6 ≤ length calls)%nat → u ∈ banned_users (fst (verify_series s u calls))).
Proof.
  intros Hu Hb Hf Hc.
  destruct (series_from_rung u calls Hu s 0%nat) as [Ho Hr]; [|done|].
  { unfold rung, view_failed_attempts. simpl. by rewrite Hf. }
  split; [done|]. intros Hlen. unfold rung in Hr. simpl in Hr.
  destruct (Nat.leb_spec (length calls) 5); [lia|done].
Qed.

(** ** Notifications that fail *)

Lemma failed_attempt_post_raises s u k w t :
  truthy WEBHOOK_URL = true → post_ok w = false →
  snd (failed_attempt s u k w t) = Raised ConnectionError.
Proof.
  intros Hurl Hpost. unfold failed_attempt, notify_return, notify.
  rewrite Hurl, Hpost. cbn [count]. rewrite count_default.
  set (c := view_failed_attempts s u + 1).
  destruct (Z.ltb_spec (Z.of_nat (length penalty_thresholds)) c); [done|].
  destruct (Z.ltb_spec 1 c); [|done].
  by destruct (tier_in_range c) as [d ->].
Qed.

Lemma failed_attempt_post_delivers s u k w t :
  notifier_ok w = true →
  ∃ r, snd (failed_attempt s u k w t) = Returned r ∧
       (r = resp_banned ∨ r = resp_invalid_key ∨ ∃ d, r = resp_blocked d).
Proof.
  intros Hn. unfold failed_attempt. cbn [count]. rewrite count_default.
  set (c := view_failed_attempts s u + 1).
  destruct (Z.ltb_spec (Z.of_nat (length penalty_thresholds)) c).
  - rewrite (proj1 (notify_return_ok _ _ _ _ Hn)). eauto 10.
  - destruct (Z.ltb_spec 1 c).
    + destruct (tier_in_range c) as [d ->]; [done..|].
      rewrite (proj1 (notify_return_ok _ _ _ _ Hn)). eauto 10.
    + rewrite (proj1 (notify_return_ok _ _ _ _ Hn)). eauto 10.
Qed.

(** C3, what the code does. With the webhook configured, a failed
    attempt whose [requests.post] raises does not get its decision: the
    exception leaves [verify] and the client receives the 500 answer of
    [internal_error], while the same request in the same state with a post
    that goes through is answered banned, invalid key or rate-limited. *)
Theorem notification_failure_replaces_decision (s : State) (u k m : string) (w : Env) :
  u ≠ "" → k ≠ "" → m ≠ "" →
  u ∉ banned_users s → under_penalty s u (now1 w) = false →
  key_matches s u k = false →
  truthy WEBHOOK_URL = true → post_ok w = false →
  snd (verify s (verify_req u k m) w) = Raised ConnectionError ∧
  respond (snd (verify s (verify_req u k m) w)) = internal_error ∧
  ∃ r, snd (verify s (verify_req u k m) (mkEnv (now1 w) (now2 w) true))
         = Returned r ∧
       (r = resp_banned ∨ r = resp_invalid_key ∨ ∃ d, r = resp_blocked d) ∧
       r ≠ internal_error.
Proof.
  intros Hu Hk Hm Hb Hp Hkey Hurl Hpost.
  assert (Hdown : snd (verify s (verify_req u k m) w) = Raised ConnectionError).
  { rewrite verify_present by done.
    destruct (verify_fields_open s u k m w Hb Hp) as [t ->].
    unfold check_license_key. rewrite Hkey.
    by apply failed_attempt_post_raises. }
  split; [done|]. split; [by rewrite Hdown|].
  rewrite verify_present by done.
  destruct (verify_fields_open s u k m (mkEnv (now1 w) (now2 w) true) Hb Hp)
    as [t ->].
  unfold check_license_key. rewrite Hkey.
  destruct (failed_attempt_post_delivers s u k (mkEnv (now1 w) (now2 w) true) t)
    as (r & Hr & Hcases).
  { unfold notifier_ok. simpl. apply orb_true_r. }
  exists r. split; [done|]. split; [done|].
  destruct Hcases as [-> | [-> | [d ->]]]; discriminate.
Qed.

(** ** Ban and penalty entry together *)

(** C4, as the code has it. The request that moves a user into the ban
    set leaves the user's entry in the penalty tracker, with a count one
    above the one before and above the number of tiers; and while a user is
    in the ban set no [/verify] request for that user changes the state, so
    the entry stays as it is. *)
Theorem ban_keeps_penalty_entry (s : State) (u k m : string) (w : Env) :
  u ∉ banned_users s →
  u ∈ banned_users (fst (verify s (verify_req u k m) w)) →
  (∃ info,
     failed_attempts (fst (verify s (verify_req u k m) w)) !! u = Some info ∧
     count info = view_failed_attempts s u + 1 ∧
     Z.of_nat (length penalty_thresholds) < count info) ∧
  ∀ k' m' w',
    fst (verify (fst (verify s (verify_req u k m) w)) (verify_req u k' m') w')
    = fst (verify s (verify_req u k m) w).
Proof.
  intros Hb Hb'. split.
  - revert Hb'. unfold_routes. cbn [verify_req v_username v_key v_machine_id].
    unfold view_failed_attempts.
    repeat case_match; simplify_eq/=; try done;
      intros _; rewrite ?lookup_insert_eq;
      (eexists; split; [done|]); simpl; (split; [done|]);
      match goal with H : (_ <? _) = true |- _ => by apply Z.ltb_lt in H end.
  - intros k' m' w'. unfold verify at 1. case_match; [done|].
    cbn [verify_req v_username default from_option id].
    by rewrite verify_fields_banned.
Qed.

(** ** Reachable states *)

Lemma reachable_run evs : ∀ s, reachable s → reachable (run s evs).
Proof.
  induction evs as [|e evs IH]; intros s Hs; [done|].
  cbn [run]. apply IH. by constructor.
Qed.

(** ** Requests that are turned away early *)

(** A [/verify] request with a field missing or empty is answered 400
    and touches nothing, banned user or not; the same for
    [/check_status]. *)
Theorem missing_field_rejected (s : State) (vdata : VerifyData)
    (sdata : StatusData) (w : Env) :
  (truthy (v_username vdata) = false ∨ truthy (v_key vdata) = false ∨
   truthy (v_machine_id vdata) = false →
   verify s vdata w = (s, Returned resp_missing)) ∧
  (truthy (c_username sdata) = false ∨ truthy (c_machine_id sdata) = false →
   check_status s sdata = (s, Returned resp_missing)).
Proof.
  split.
  - intros H. unfold verify.
    destruct H as [-> | [-> | ->]]; simpl; by rewrite ?orb_true_r.
  - intros H. unfold check_status.
    destruct H as [-> | ->]; simpl; by rewrite ?orb_true_r.
Qed.

(** ** What a success answer tells *)

Lemma truthy_true (o : option string) :
  truthy o = true → ∃ u, o = Some u ∧ u ≠ "".
Proof.
  destruct o as [u|]; simpl; [|done].
  intros H. exists u. split; [done|].
  by apply negb_true_iff, bool_decide_eq_false in H.
Qed.

(** The shape of a request that got past the field test. *)
Lemma verify_passed_fields s data w :
  negb (truthy (v_username data)) || negb (truthy (v_key data))
    || negb (truthy (v_machine_id data)) = false →
  ∃ u k m, data = verify_req u k m ∧ u ≠ "" ∧ k ≠ "" ∧ m ≠ "" ∧
           verify s data w = verify_fields s u k m w.
Proof.
  intros H. apply orb_false_elim in H as [H Hm].
  apply orb_false_elim in H as [Hu Hk].
  apply negb_false_iff, truthy_true in Hu as (u & Hu & ?).
  apply negb_false_iff, truthy_true in Hk as (k & Hk & ?).
  apply negb_false_iff, truthy_true in Hm as (m & Hm & ?).
  exists u, k, m. destruct data as [du dk dm]. simpl in *. subst.
  repeat (split; [done|]). by apply verify_present.
Qed.

Lemma verify_success_inv s s' data w :
  verify s data w = (s', Returned resp_success) →
  ∃ u k m, data = verify_req u k m ∧ u ≠ "" ∧ k ≠ "" ∧ m ≠ "" ∧
    (u ∉ banned_users s) ∧ under_penalty s u (now1 w) = false ∧
    key_matches s u k = true ∧
    (machine_bindings s !! u = None ∨ machine_bindings s !! u = Some m) ∧
    machine_bindings s' !! u = Some m ∧
    banned_users s' = banned_users s ∧
    failed_attempts s' !! u = None.
Proof.
  intros H.
  destruct (negb (truthy (v_username data)) || negb (truthy (v_key data))
            || negb (truthy (v_machine_id data))) eqn:Hf.
  { unfold verify in H. rewrite Hf in H. by simplify_eq. }
  destruct (verify_passed_fields s data w Hf) as (u & k & m & -> & Hu & Hk & Hm & Hv).
  rewrite Hv in H. exists u, k, m. repeat (split; [done|]).
  assert (Hp : under_penalty s u (now1 w) = false).
  { revert H. unfold verify_fields, under_penalty.
    repeat case_match; try done; intros; simplify_eq. }
  apply verify_fields_success_inv in H as (Hb & Hkey & Hcase).
  repeat (split; [done|]).
  destruct Hcase as [[Hn ->] | [Hs ->]]; simpl;
    rewrite ?lookup_insert_eq, lookup_delete_eq; auto.
Qed.

(** A success answer is only given to a request with all three fields,
    for a user who is not banned and not under a running penalty, whose
    license carries exactly the submitted key, and who was unbound or bound
    to the submitted machine; afterwards the user is bound to that machine,
    has no penalty entry, and the ban set is as before. *)
Theorem success_needs_license_and_machine (s s' : State) (data : VerifyData) (w : Env) :
  verify s data w = (s', Returned resp_success) →
  ∃ u k m lic, data = verify_req u k m ∧ u ≠ "" ∧ k ≠ "" ∧ m ≠ "" ∧
    licenses s !! u = Some lic ∧ key lic = k ∧
    (u ∉ banned_users s) ∧ under_penalty s u (now1 w) = false ∧
    (machine_bindings s !! u = None ∨ machine_bindings s !! u = Some m) ∧
    machine_bindings s' !! u = Some m ∧
    failed_attempts s' !! u = None ∧
    banned_users s' = banned_users s.
Proof.
  intros H.
  apply verify_success_inv in H
    as (u & k & m & -> & Hu & Hk & Hm & Hb & Hp & Hkey & Hbind & Hm' & Hbs & Hfa).
  unfold key_matches in Hkey.
  destruct (licenses s !! u) as [lic|] eqn:Hl; [|done].
  apply bool_decide_eq_true in Hkey.
  exists u, k, m, lic. by repeat (split; [done|]).
Qed.

(** Without a license no key is ever answered success, whatever the
    key, the machine and the clock; so it is after [!delete_license]. *)
Theorem unlicensed_never_succeeds (s : State) (u : string) :
  (licenses s !! u = None →
   ∀ k m w, snd (verify s (verify_req u k m) w) ≠ Returned resp_success) ∧
  (∀ k m w,
     snd (verify (delete_license s u) (verify_req u k m) w)
       ≠ Returned resp_success).
Proof.
  assert (Hgen : ∀ s0, licenses s0 !! u = None →
            ∀ k m w, snd (verify s0 (verify_req u k m) w) ≠ Returned resp_success).
  { intros s0 Hl k m w Hs.
    destruct (verify s0 (verify_req u k m) w) as [s1 o] eqn:Hv. simpl in Hs.
    subst o. apply verify_success_inv in Hv
      as (u' & k' & m' & Heq & _ & _ & _ & _ & _ & Hkey & _).
    injection Heq as <- <- <-. unfold key_matches in Hkey. by rewrite Hl in Hkey. }
  split; [apply Hgen|].
  apply Hgen. unfold delete_license.
  destruct (licenses s !! u) eqn:Hl; [simpl; apply lookup_delete_eq|done].
Qed.

(** After a success answer the status route agrees: allowed for the
    machine just verified, denied for any other. *)
Theorem success_then_status_allowed (s s' : State) (u k m : string) (w : Env) :
  verify s (verify_req u k m) w = (s', Returned resp_success) →
  check_status s' (status_req u m) = (s', Returned resp_status_allowed) ∧
  ∀ m', m' ≠ "" → m' ≠ m →
    check_status s' (status_req u m') = (s', Returned resp_status_denied).
Proof.
  intros H.
  apply verify_success_inv in H
    as (u' & k' & m0 & Heq & Hu & Hk & Hm & Hb & _ & _ & _ & Hm' & Hbs & _).
  injection Heq as <- <- <-.
  assert (Hgen : ∀ m', m' ≠ "" →
    check_status s' (status_req u m')
    = (s', Returned (if bool_decide (m = m') then resp_status_allowed
                     else resp_status_denied))).
  { intros m' Hne. unfold check_status, status_req. cbn [c_username c_machine_id].
    rewrite !truthy_Some by done. cbn [negb orb default from_option id].
    rewrite Hbs, bool_decide_eq_false_2, Hm' by done.
    by case_bool_decide. }
  split.
  - rewrite Hgen by done. by rewrite bool_decide_eq_true_2.
  - intros m' Hne Hdiff. rewrite Hgen by done.
    by rewrite bool_decide_eq_false_2.
Qed.

(** ** Bindings *)

Lemma verify_fields_keeps_binding s v k m0 w u m :
  machine_bindings s !! u = Some m →
  machine_bindings (fst (verify_fields s v k m0 w)) !! u = Some m.
Proof.
  intros Hm. unfold verify_fields, check_license_key, failed_attempt,
    notify_return, notify.
  repeat case_match; simplify_eq/=; try done.
  all: destruct (decide (v = u)) as [->|Hne];
    [congruence|by rewrite lookup_insert_ne].
Qed.

Lemma verify_keeps_binding s data w u m :
  machine_bindings s !! u = Some m →
  machine_bindings (fst (verify s data w)) !! u = Some m.
Proof.
  intros Hm. unfold verify. case_match; [done|].
  by apply verify_fields_keeps_binding.
Qed.

Lemma step_keeps_binding s e u m :
  machine_bindings s !! u = Some m → machine_bindings (step s e) !! u = Some m.
Proof.
  intros Hm. destruct e; cbn [step].
  - by apply verify_keeps_binding.
  - by rewrite check_status_state.
  - unfold_commands. by case_match.
  - unfold_commands. by case_match.
  - unfold_commands. by case_match.
  - done.
  - unfold_commands. by case_match.
  - unfold_commands. by case_match.
  - unfold_commands. by case_match.
  - done.
Qed.

(** A binding is for good: no request and no bot command of the server
    changes or removes the machine a user is bound to. *)
Theorem binding_is_permanent (s : State) (u m : string) (evs : list Event) :
  machine_bindings s !! u = Some m →
  machine_bindings (run s evs) !! u = Some m.
Proof.
  revert s. induction evs as [|e evs IH]; intros s Hm; [done|].
  cbn [run]. apply IH. by apply step_keeps_binding.
Qed.

Lemma verify_file_sync s data w :
  machine_bindings_file s = machine_bindings s →
  machine_bindings_file (fst (verify s data w))
  = machine_bindings (fst (verify s data w)).
Proof. intros H. unfold_routes. repeat case_match; by simplify_eq/=. Qed.

Lemma verify_fields_counts_positive s v k m w :
  (∀ u info, failed_attempts s !! u = Some info → 1 ≤ count info) →
  ∀ u info, failed_attempts (fst (verify_fields s v k m w)) !! u = Some info →
            1 ≤ count info.
Proof.
  intros Hpos u info.
  assert (Hc : 0 ≤ count (default (mkPenalty 0 (inject_Z 0)) (failed_attempts s !! v))).
  { destruct (failed_attempts s !! v) as [p|] eqn:E; simpl; [|lia].
    specialize (Hpos _ _ E). lia. }
  unfold verify_fields, check_license_key, failed_attempt, notify_return, notify.
  repeat case_match; simplify_eq/=; try apply Hpos.
  all: destruct (decide (v = u)) as [->|Hne];
    rewrite ?lookup_delete_eq, ?lookup_insert_eq; try done;
    rewrite ?lookup_delete_ne, ?lookup_insert_ne by done; try apply Hpos;
    intros ?; simplify_eq/=; lia.
Qed.

Lemma verify_counts_positive s data w :
  (∀ u info, failed_attempts s !! u = Some info → 1 ≤ count info) →
  ∀ u info, failed_attempts (fst (verify s data w)) !! u = Some info →
            1 ≤ count info.
Proof.
  intros Hpos. unfold verify. case_match; [done|].
  by apply verify_fields_counts_positive.
Qed.

(** In every state the server can reach, the bindings file holds exactly
    the bindings in memory, and every entry of the penalty tracker counts
    at least one failed attempt. *)
Theorem reachable_invariants (s : State) :
  reachable s →
  machine_bindings_file s = machine_bindings s ∧
  ∀ u info, failed_attempts s !! u = Some info → 1 ≤ count info.
Proof.
  induction 1 as [lic b | s e Hs [IHf IHc]].
  - split; [done|]. intros u info. simpl. by rewrite lookup_empty.
  - destruct e; cbn [step].
    + split; [by apply verify_file_sync | by apply verify_counts_positive].
    + by rewrite check_status_state.
    + unfold_commands. by case_match.
    + unfold_commands. by case_match.
    + unfold_commands. by case_match.
    + done.
    + unfold_commands. by case_match.
    + unfold_commands. case_match; [|done]. simpl. split; [done|].
      intros u info Hl. apply lookup_delete_Some in Hl as [_ Hl]. eauto.
    + unfold_commands. by case_match.
    + done.
Qed.

(** ** Notifications *)

(** One request posts at most one message, and only for a key that did
    not match, with the webhook configured and taking the post; the message
    names the requesting user. *)
Theorem at_most_one_notification (s : State) (u k m : string) (w : Env) :
  sent (fst (verify s (verify_req u k m) w)) = sent s ∨
  (∃ n, sent (fst (verify s (verify_req u k m) w)) = (sent s ++ [n])%list ∧
        (n = NoteBanned u ∨ n = NoteFailed u k ∨ n = NoteFirstFailed u k) ∧
        key_matches s u k = false ∧
        truthy WEBHOOK_URL = true ∧ post_ok w = true).
Proof.
  unfold_routes. cbn [verify_req v_username v_key v_machine_id default from_option id].
  repeat case_match; simplify_eq/=; auto; right; eexists; eauto 10.
Qed.

(** A post that raises undoes nothing: the failed attempt is counted,
    and a user whose count passes the number of tiers is in the ban set,
    although the client got no decision and no message was delivered. *)
Theorem failed_post_still_counts (s : State) (u k m : string) (w : Env) :
  u ≠ "" → k ≠ "" → m ≠ "" →
  u ∉ banned_users s → under_penalty s u (now1 w) = false →
  key_matches s u k = false →
  truthy WEBHOOK_URL = true → post_ok w = false →
  view_failed_attempts (fst (verify s (verify_req u k m) w)) u
    = view_failed_attempts s u + 1 ∧
  (Z.of_nat (length penalty_thresholds) < view_failed_attempts s u + 1 →
   u ∈ banned_users (fst (verify s (verify_req u k m) w))) ∧
  sent (fst (verify s (verify_req u k m) w)) = sent s.
Proof.
  intros Hu Hk Hm Hb Hp Hkey Hurl Hpost.
  rewrite verify_present by done.
  destruct (verify_fields_open s u k m w Hb Hp) as [t ->].
  unfold check_license_key. rewrite Hkey.
  unfold failed_attempt, notify_return, notify.
  rewrite Hurl, Hpost. cbn [count]. rewrite count_default.
  set (c := view_failed_attempts s u + 1).
  destruct (Z.ltb_spec (Z.of_nat (length penalty_thresholds)) c) as [Hc|Hc].
  - unfold view_failed_attempts at 1. simpl. rewrite lookup_insert_eq. simpl.
    split; [done|]. split; [|done]. intros _.
    apply elem_of_union_l. by apply elem_of_singleton.
  - destruct (Z.ltb_spec 1 c).
    + destruct (tier_in_range c) as [d ->]; [done..|].
      unfold view_failed_attempts at 1. simpl. rewrite lookup_insert_eq. simpl.
      split; [done|]. split; [intros ?; simpl in *; lia|done].
    + unfold view_failed_attempts at 1. simpl. rewrite lookup_insert_eq. simpl.
      split; [done|]. split; [intros ?; simpl in *; lia|done].
Qed.

(** ** Other users *)

(** A [/verify] request for one user leaves every other user's penalty
    entry, binding and ban status as they were. *)
Theorem verify_leaves_others (s : State) (u k m other : string) (w : Env) :
  other ≠ u →
  failed_attempts (fst (verify s (verify_req u k m) w)) !! other
    = failed_attempts s !! other ∧
  machine_bindings (fst (verify s (verify_req u k m) w)) !! other
    = machine_bindings s !! other ∧
  (other ∈ banned_users (fst (verify s (verify_req u k m) w))
     ↔ other ∈ banned_users s).
Proof.
  intros Hne. unfold_routes.
  cbn [verify_req v_username v_key v_machine_id default from_option id].
  repeat case_match; simplify_eq; simpl;
    rewrite ?lookup_insert_ne, ?lookup_delete_ne by done;
    (split; [done|]); (split; [done|]);
    rewrite ?elem_of_union, ?elem_of_singleton; tauto.
Qed.

(** ** Operator commands and the requests after them *)

Lemma ladder_top (i : nat) : (5 ≤ i)%nat → ladder i = resp_banned.
Proof. intros H. do 5 (destruct i as [|i]; [lia|]). done. Qed.

(** [!unban_user] does not touch the penalty tracker: with a count of
    five or more still standing, the first counted wrong key after the unban
    is answered banned and puts the user back into the ban set. *)
Theorem unban_without_reset_rebans (s : State) (u k m : string) (w : Env) :
  u ≠ "" → k ≠ "" → m ≠ "" →
  5 ≤ view_failed_attempts s u →
  under_penalty s u (now1 w) = false →
  key_matches s u k = false → notifier_ok w = true →
  failed_attempts (unban_user s u) = failed_attempts s ∧
  snd (verify (unban_user s u) (verify_req u k m) w) = Returned resp_banned ∧
  u ∈ banned_users (fst (verify (unban_user s u) (verify_req u k m) w)).
Proof.
  intros Hu Hk Hm Hc Hp Hkey Hn.
  assert (Hfa : failed_attempts (unban_user s u) = failed_attempts s).
  { unfold unban_user. by case_match. }
  assert (Hnb : u ∉ banned_users (unban_user s u)).
  { unfold unban_user. case_bool_decide; [simpl|done].
    rewrite not_elem_of_difference. right. by apply elem_of_singleton. }
  split; [done|].
  destruct (verify_failure_number (Z.to_nat (view_failed_attempts s u))
              (unban_user s u) u k m w) as (Ho & _ & Hb); try done.
  - unfold under_penalty in *. by rewrite Hfa.
  - unfold key_matches, unban_user in *. by case_match.
  - unfold view_failed_attempts in *. rewrite Hfa. lia.
  - split.
    + rewrite Ho. apply f_equal, ladder_top. lia.
    + apply Hb. lia.
Qed.

(** [!reset_penalty] wipes the slate of a user who is not banned: the
    next wrong key is answered as a first failure, 401 without penalty,
    whatever the count and the running penalty were, and the count is one
    afterwards. *)
Theorem reset_penalty_forgives (s : State) (u k m : string) (w : Env) :
  u ≠ "" → k ≠ "" → m ≠ "" →
  u ∉ banned_users s →
  key_matches s u k = false → notifier_ok w = true →
  snd (verify (reset_penalty s u) (verify_req u k m) w)
    = Returned resp_invalid_key ∧
  view_failed_attempts (fst (verify (reset_penalty s u) (verify_req u k m) w)) u
    = 1.
Proof.
  intros Hu Hk Hm Hb Hkey Hn.
  assert (Hfa : failed_attempts (reset_penalty s u) !! u = None).
  { unfold reset_penalty. destruct (failed_attempts s !! u) eqn:E; [|done].
    simpl. apply lookup_delete_eq. }
  destruct (verify_failure_number 0 (reset_penalty s u) u k m w)
    as (Ho & Hc & _); try done.
  - unfold reset_penalty. by case_match.
  - unfold under_penalty. by rewrite Hfa.
  - unfold key_matches, reset_penalty in *. by case_match.
  - unfold view_failed_attempts. by rewrite Hfa.
Qed.

(** After [!update_license] the new key opens and the old one does not:
    for a licensed user who is neither banned nor under penalty, the new key
    from an allowed machine is answered success, and the key it replaced is
    never answered success. *)
Theorem update_license_switches_key (s : State) (u new_key m : string)
    (lic : License) (w : Env) :
  u ≠ "" → new_key ≠ "" → m ≠ "" →
  licenses s !! u = Some lic → key lic ≠ new_key →
  u ∉ banned_users s → under_penalty s u (now1 w) = false →
  machine_bindings s !! u = None ∨ machine_bindings s !! u = Some m →
  snd (verify (update_license s u new_key) (verify_req u new_key m) w)
    = Returned resp_success ∧
  ∀ m' w',
    snd (verify (update_license s u new_key) (verify_req u (key lic) m') w')
      ≠ Returned resp_success.
Proof.
  intros Hu Hk Hm Hl Hne Hb Hp Hbind.
  assert (Hs' : update_license s u new_key
                = set_licenses (<[u := mkLicense new_key]> (licenses s)) s).
  { unfold update_license. by rewrite Hl. }
  rewrite Hs'. split.
  - rewrite verify_present by done.
    destruct (verify_fields_open
                (set_licenses (<[u := mkLicense new_key]> (licenses s)) s)
                u new_key m w Hb Hp) as [t ->].
    unfold check_license_key, key_matches. simpl. rewrite lookup_insert_eq. simpl.
    rewrite bool_decide_eq_true_2 by done.
    destruct Hbind as [-> | ->]; [done|]. by rewrite bool_decide_eq_true_2.
  - intros m' w' Hsucc.
    destruct (verify _ (verify_req u (key lic) m') w') as [s1 o] eqn:Hv.
    simpl in Hsucc. subst o.
    apply verify_success_inv in Hv
      as (u' & k' & m0 & Heq & _ & _ & _ & _ & _ & Hkey & _).
    injection Heq as <- <- <-.
    unfold key_matches in Hkey. simpl in Hkey. rewrite lookup_insert_eq in Hkey.
    simpl in Hkey. by apply bool_decide_eq_true in Hkey.
Qed.

(** [!ban_user] then [!unban_user] gives back the state of a user who
    was not banned, and banning twice is banning once. *)
Theorem ban_unban_round_trip (s : State) (u : string) :
  (u ∉ banned_users s → unban_user (ban_user s u) u = s) ∧
  ban_user (ban_user s u) u = ban_user s u.
Proof.
  split.
  - intros Hb. unfold unban_user, ban_user. simpl.
    rewrite bool_decide_eq_true_2
      by (apply elem_of_union_l; by apply elem_of_singleton).
    unfold set_banned. simpl.
    replace (({[u]} ∪ banned_users s) ∖ {[u]}) with (banned_users s);
      [apply state_eta|].
    apply set_eq. intros x.
    rewrite elem_of_difference, elem_of_union, elem_of_singleton.
    split; [|tauto]. intros Hx. split; [tauto|]. by intros ->.
  - unfold ban_user, set_banned. simpl. f_equal.
    apply set_eq. intros x. rewrite !elem_of_union. tauto.
Qed.

(** [!import_licenses] puts back exactly what [!export_licenses] wrote:
    licenses generated, updated, deleted or cleared in between are replaced,
    not merged; bindings, penalties and bans stay as they are at the time of
    the import.  Importing right after [!clear_licenses] gives the state
    back, and without a backup file the command changes nothing. *)
Theorem import_restores_export (s : State) (evs : list Event) :
  licenses (import_licenses (run s evs) (Some (export_licenses s))) = licenses s ∧
  machine_bindings (import_licenses (run s evs) (Some (export_licenses s)))
    = machine_bindings (run s evs) ∧
  failed_attempts (import_licenses (run s evs) (Some (export_licenses s)))
    = failed_attempts (run s evs) ∧
  banned_users (import_licenses (run s evs) (Some (export_licenses s)))
    = banned_users (run s evs) ∧
  import_licenses (clear_licenses s) (Some (export_licenses s)) = s ∧
  import_licenses (run s evs) None = run s evs.
Proof.
  unfold import_licenses, export_licenses, clear_licenses, set_licenses.
  simpl. repeat split; try done; apply state_eta.
Qed.

(** ** A penalty, once announced *)



(** ** The admin list *)

Lemma elem_of_list_remove (x y : Z) (l : list Z) : y ∈ list_remove x l → y ∈ l.
Proof.
  induction l as [|z l IH]; simpl; [done|].
  case_bool_decide.
  - intros ?. by right.
  - intros [->|?]%elem_of_cons; [by left|right; auto].
Qed.

Lemma elem_of_list_remove_ne (x y : Z) (l : list Z) :
  y ≠ x → y ∈ list_remove x l ↔ y ∈ l.
Proof.
  intros Hne. split; [apply elem_of_list_remove|].
  induction l as [|z l IH]; simpl; [done|].
  intros [->|Hin]%elem_of_cons.
  - rewrite bool_decide_eq_false_2 by done. by left.
  - case_bool_decide; [done|]. right. auto.
Qed.

Lemma NoDup_list_remove (x : Z) (l : list Z) :
  NoDup l → NoDup (list_remove x l) ∧ x ∉ list_remove x l.
Proof.
  induction 1 as [|z l Hz Hl [IH1 IH2]]; simpl.
  - split; [constructor|]. by intros ?%elem_of_nil.
  - case_bool_decide as Hzx.
    + subst. done.
    + split.
      * constructor; [|done]. intros ?%elem_of_list_remove. done.
      * intros [->|?]%elem_of_cons; done.
Qed.

Lemma list_remove_snoc (x : Z) (l : list Z) :
  x ∉ l → list_remove x (l ++ [x]) = l.
Proof.
  induction l as [|z l IH]; simpl; intros Hx.
  - by rewrite bool_decide_eq_true_2.
  - rewrite bool_decide_eq_false_2.
    + f_equal. apply IH. intros ?. apply Hx. by right.
    + intros ->. apply Hx. by left.
Qed.

(** [!add_admin] and [!remove_admin] keep a list without repetitions
    free of them, and once the file holds the list it keeps holding it. *)
Theorem admins_stay_distinct_and_saved (a : Admins) (x : Z) :
  (NoDup (admins a) →
   NoDup (admins (add_admin a x)) ∧ NoDup (admins (remove_admin a x))) ∧
  (admins_file a = Some (admins a) →
   admins_file (add_admin a x) = Some (admins (add_admin a x)) ∧
   admins_file (remove_admin a x) = Some (admins (remove_admin a x))).
Proof.
  unfold add_admin, remove_admin. split.
  - intros Hnd. split; case_bool_decide; simpl; try done.
    + apply NoDup_app. split; [done|]. split; [|apply NoDup_singleton].
      intros y Hy ->%list_elem_of_singleton. done.
    + by apply NoDup_list_remove.
  - intros Hf. split; by case_bool_decide.
Qed.

(** Adding makes an admin and removing unmakes one (in a list without
    repetitions), nobody else's standing changes, adding a new admin and
    removing them again gives the list back, and the one default admin can
    be removed, which leaves no admin at all. *)
Theorem add_remove_admin (a : Admins) (x : Z) :
  is_admin (add_admin a x) x = true ∧
  (NoDup (admins a) → is_admin (remove_admin a x) x = false) ∧
  (∀ y, y ≠ x →
     is_admin (add_admin a x) y = is_admin a y ∧
     is_admin (remove_admin a x) y = is_admin a y) ∧
  (x ∉ admins a → admins (remove_admin (add_admin a x) x) = admins a) ∧
  admins (remove_admin (boot_admins None x) x) = [].
Proof.
  unfold is_admin, add_admin, remove_admin.
  split; [|split; [|split; [|split]]].
  - destruct (decide (x ∈ admins a)) as [Hin|Hnin].
    + rewrite (bool_decide_eq_true_2 _ Hin). by apply bool_decide_eq_true_2.
    + rewrite (bool_decide_eq_false_2 _ Hnin). simpl.
      apply bool_decide_eq_true_2, elem_of_app. right.
      by apply list_elem_of_singleton.
  - intros Hnd. destruct (decide (x ∈ admins a)) as [Hin|Hnin].
    + rewrite (bool_decide_eq_true_2 _ Hin). simpl.
      apply bool_decide_eq_false_2. by apply NoDup_list_remove.
    + rewrite (bool_decide_eq_false_2 _ Hnin). by apply bool_decide_eq_false_2.
  - intros y Hy. destruct (decide (x ∈ admins a)) as [Hin|Hnin].
    + rewrite (bool_decide_eq_true_2 _ Hin). simpl. split; [done|].
      apply bool_decide_ext. by apply elem_of_list_remove_ne.
    + rewrite (bool_decide_eq_false_2 _ Hnin). simpl. split; [|done].
      apply bool_decide_ext.
      rewrite elem_of_app, list_elem_of_singleton. tauto.
  - intros Hx. rewrite (bool_decide_eq_false_2 _ Hx). simpl.
    rewrite bool_decide_eq_true_2.
    + simpl. by apply list_remove_snoc.
    + apply elem_of_app. right. by apply list_elem_of_singleton.
  - simpl. rewrite bool_decide_eq_true_2 by (by left). simpl.
    by rewrite bool_decide_eq_true_2.
Qed.

(** ** The key exchange *)

(** With a modulus of at least two, whatever number of [1 .. p - 1] is
    drawn, the command answers with two numbers below the modulus and not
    negative; with a modulus of one or less the draw of the private number
    fails and the command answers with the error message. *)
Theorem exchange_in_range (p g A b : Z) :
  (2 ≤ p → 1 ≤ b ≤ p - 1 →
   ∃ B K, diffie_hellman p g A b = ExchangeResult B K ∧
          0 ≤ B < p ∧ 0 ≤ K < p) ∧
  (p ≤ 1 → diffie_hellman p g A b = ExchangeError).
Proof.
  unfold diffie_hellman, py_pow. split.
  - intros Hp Hb. destruct (Z.ltb_spec (p - 1) 1); [lia|].
    eexists _, _. split; [done|]. split; apply Z.mod_pos_bound; lia.
  - intros Hp. destruct (Z.ltb_spec (p - 1) 1); [done|lia].
Qed.

(** The two sides agree: a client that sent [A = pow(g, a, p)] and
    raises the answered [B] to its own [a] obtains the answered [K]. *)
Theorem exchange_agrees (p g a b : Z) :
  2 ≤ p → 0 ≤ a → 1 ≤ b ≤ p - 1 →
  ∃ B K, diffie_hellman p g (py_pow g a p) b = ExchangeResult B K ∧
         py_pow B a p = K.
Proof.
  intros Hp Ha Hb. unfold diffie_hellman, py_pow.
  destruct (Z.ltb_spec (p - 1) 1); [lia|].
  eexists _, _. split; [done|].
  rewrite !Z.mod_pow_l, <- !Z.pow_mul_r by lia.
  by rewrite (Z.mul_comm b a).
Qed.

(** ** The paginated listing *)

(** The slice of a page that exists is the ten entries, or what is left
    of them, from the page's first entry on. *)
Lemma page_slice {A} (l : list A) (page : Z) :
  1 ≤ page → 10 * (page - 1) < Z.of_nat (length l) →
  py_slice l ((page - 1) * 10) ((page - 1) * 10 + 10)
  = take 10 (drop (Z.to_nat (10 * (page - 1))) l).
Proof.
  intros H1 H2. unfold py_slice.
  destruct (Z.ltb_spec ((page - 1) * 10) 0); [lia|].
  destruct (Z.ltb_spec ((page - 1) * 10 + 10) 0); [lia|].
  rewrite (Z.min_l ((page - 1) * 10)) by lia.
  replace (Z.to_nat ((page - 1) * 10)) with (Z.to_nat (10 * (page - 1))) by lia.
  destruct (Z.le_ge_cases ((page - 1) * 10 + 10) (Z.of_nat (length l))).
  - rewrite Z.min_l by lia. f_equal. lia.
  - rewrite Z.min_r by lia. rewrite !take_ge; [done|..]; rewrite length_drop; lia.
Qed.

Lemma total_pages_spec (n page : Z) :
  0 ≤ n → (page ≤ (n + 10 - 1) `div` 10 ↔ 10 * (page - 1) < n).
Proof.
  intros Hn.
  pose proof (Z.div_mod (n + 10 - 1) 10 ltac:(lia)).
  pose proof (Z.mod_pos_bound (n + 10 - 1) 10 ltac:(lia)).
  lia.
Qed.

Lemma list_licenses_pages_aux (items : list (string * License)) (page : Z) :
  1 ≤ page → 10 * (page - 1) < Z.of_nat (length items) →
  list_licenses items page
  = Page page ((Z.of_nat (length items) + 9) `div` 10)
         (take 10 (drop (Z.to_nat (10 * (page - 1))) items)) ∧
  (1 ≤ length (take 10 (drop (Z.to_nat (10 * (page - 1))) items)) ≤ 10)%nat.
Proof.
  intros H1 H2. unfold list_licenses.
  replace (Z.of_nat (length items) + 10 - 1) with (Z.of_nat (length items) + 9)
    by lia.
  pose proof (total_pages_spec (Z.of_nat (length items)) page ltac:(lia)) as Htot.
  replace (Z.of_nat (length items) + 10 - 1) with (Z.of_nat (length items) + 9)
    in Htot by lia.
  destruct (Z.ltb_spec page 1); [lia|].
  destruct (Z.ltb_spec ((Z.of_nat (length items) + 9) `div` 10) page); [lia|].
  simpl. rewrite page_slice by done. split; [done|].
  rewrite length_take, length_drop. lia.
Qed.

(** A page is shown exactly when it is at least one and its first entry
    exists; it then holds between one and ten entries, namely the next ten
    from entry [10 * (page - 1)] on.  Every other page number, and every
    page number when there is no license at all, is refused with the number
    of pages. *)
Theorem list_licenses_pages (items : list (string * License)) (page : Z) :
  (1 ≤ page → 10 * (page - 1) < Z.of_nat (length items) →
   list_licenses items page
   = Page page ((Z.of_nat (length items) + 9) `div` 10)
          (take 10 (drop (Z.to_nat (10 * (page - 1))) items)) ∧
   (1 ≤ length (take 10 (drop (Z.to_nat (10 * (page - 1))) items)) ≤ 10)%nat) ∧
  (page < 1 ∨ Z.of_nat (length items) ≤ 10 * (page - 1) →
   list_licenses items page
   = InvalidPage ((Z.of_nat (length items) + 9) `div` 10)) ∧
  list_licenses [] page = InvalidPage 0.
Proof.
  split; [|split].
  - apply list_licenses_pages_aux.
  - intros H. unfold list_licenses.
    replace (Z.of_nat (length items) + 10 - 1) with (Z.of_nat (length items) + 9)
      by lia.
    pose proof (total_pages_spec (Z.of_nat (length items)) page ltac:(lia)) as Htot.
    replace (Z.of_nat (length items) + 10 - 1) with (Z.of_nat (length items) + 9)
      in Htot by lia.
    destruct (Z.ltb_spec page 1); [done|].
    destruct (Z.ltb_spec ((Z.of_nat (length items) + 9) `div` 10) page); [done|].
    lia.
  - unfold list_licenses. cbn [length].
    change ((Z.of_nat 0 + 10 - 1) `div` 10) with 0.
    destruct (Z.ltb_spec page 1); [done|].
    destruct (Z.ltb_spec 0 page); [done|lia].
Qed.

(** Every license is listed once, where one expects it: the entry number
    [i] of the file (from zero) is the entry number [i mod 10] of page
    [i / 10 + 1], and that page is shown. *)
Theorem list_licenses_locates (items : list (string * License)) (i : nat)
    (x : string * License) :
  items !! i = Some x →
  ∃ total entries,
    list_licenses items (Z.of_nat (i / 10) + 1) = Page (Z.of_nat (i / 10) + 1) total entries ∧
    entries !! (i mod 10)%nat = Some x.
Proof.
  intros Hx. pose proof (lookup_lt_Some _ _ _ Hx) as Hlt.
  pose proof (Nat.div_mod_eq i 10) as Hdm.
  pose proof (Nat.mod_upper_bound i 10 ltac:(lia)) as Hmod.
  destruct (list_licenses_pages_aux items (Z.of_nat (i / 10) + 1)) as [Hp _];
    [lia|lia|].
  eexists _, _. split; [exact Hp|].
  rewrite lookup_take_lt, lookup_drop by lia.
  rewrite <- Hx. f_equal. lia.
Qed.

(** ** The key generator *)

Lemma choice_in_alphabet (i : fin 36) : choice i ∈ key_alphabet.
Proof.
  unfold choice. apply list_elem_of_In, nth_In.
  pose proof (fin_to_nat_lt i). simpl. lia.
Qed.

(** The six groups laid open. *)
Lemma generate_license_key_groups (picks : vec (vec (fin 36) 6) 6) :
  ∃ c : nat → nat → fin 36,
    generate_license_key picks
    = String.concat "-"
        (map (λ g, string_of_list_ascii (map (λ i, choice (c g i)) (seq 0 6)))
             (seq 0 6)).
Proof.
  inv_vec picks. intros g0 g1 g2 g3 g4 g5.
  inv_vec g0. intros a0 a1 a2 a3 a4 a5.
  inv_vec g1. intros b0 b1 b2 b3 b4 b5.
  inv_vec g2. intros c0 c1 c2 c3 c4 c5.
  inv_vec g3. intros d0 d1 d2 d3 d4 d5.
  inv_vec g4. intros e0 e1 e2 e3 e4 e5.
  inv_vec g5. intros f0 f1 f2 f3 f4 f5.
  exists (λ g i,
    nth i (nth g [[a0; a1; a2; a3; a4; a5]; [b0; b1; b2; b3; b4; b5];
                  [c0; c1; c2; c3; c4; c5]; [d0; d1; d2; d3; d4; d5];
                  [e0; e1; e2; e3; e4; e5]; [f0; f1; f2; f3; f4; f5]] []) a0).
  reflexivity.
Qed.

(** A generated key has 41 characters, so it is never the empty key
    that [/verify] refuses as missing, and each character is a dash, a
    capital letter or a digit. *)
Theorem license_key_shape (picks : vec (vec (fin 36) 6) 6) :
  String.length (generate_license_key picks) = 41%nat ∧
  truthy (Some (generate_license_key picks)) = true ∧
  Forall (λ ch, ch = "-"%char ∨ ch ∈ key_alphabet)
         (list_ascii_of_string (generate_license_key picks)).
Proof.
  destruct (generate_license_key_groups picks) as [c ->].
  split; [reflexivity|]. split; [reflexivity|].
  cbn [seq map String.concat string_of_list_ascii String.append
       list_ascii_of_string].
  repeat (constructor; [first [by left | right; apply choice_in_alphabet]|]).
  constructor.
Qed.

(** [!generate] never replaces a license that exists; for a user
    without one it installs the generated key, and that key, presented by
    the user (not banned, no penalty running) from an allowed machine, is
    answered success. *)
Theorem generated_key_verifies (s : State) (u m : string)
    (picks : vec (vec (fin 36) 6) 6) (w : Env) :
  (∀ lic, licenses s !! u = Some lic →
     generate_license s u (generate_license_key picks) = s) ∧
  (u ≠ "" → m ≠ "" →
   licenses s !! u = None →
   u ∉ banned_users s → under_penalty s u (now1 w) = false →
   machine_bindings s !! u = None ∨ machine_bindings s !! u = Some m →
   snd (verify (generate_license s u (generate_license_key picks))
          (verify_req u (generate_license_key picks) m) w)
   = Returned resp_success).
Proof.
  split.
  - intros lic Hl. unfold generate_license. by rewrite Hl.
  - intros Hu Hm Hl Hb Hp Hbind.
    assert (Hk : generate_license_key picks ≠ "").
    { destruct (generate_license_key_groups picks) as [c ->]. discriminate. }
    unfold generate_license. rewrite Hl.
    rewrite verify_present by done.
    destruct (verify_fields_open
                (set_licenses (<[u := mkLicense (generate_license_key picks)]>
                                 (licenses s)) s)
                u (generate_license_key picks) m w Hb Hp) as [t ->].
    unfold check_license_key, key_matches. simpl. rewrite lookup_insert_eq. simpl.
    rewrite bool_decide_eq_true_2 by done.
    destruct Hbind as [-> | ->]; [done|]. by rewrite bool_decide_eq_true_2.
Qed.

End Routes.

(** ** The statements on sample data *)

Lemma in_ban_set (s : State) (u : string) :
  bool_decide (u ∈ banned_users s) = true → u ∈ banned_users s.
Proof. apply bool_decide_eq_true_1. Qed.

Lemma not_in_ban_set (s : State) (u : string) :
  bool_decide (u ∈ banned_users s) = false → u ∉ banned_users s.
Proof. apply bool_decide_eq_false_1. Qed.

Ltac by_running := vm_compute; reflexivity.
Ltac banned_by_running := apply in_ban_set; by_running.
Ltac not_banned_by_running := apply not_in_ban_set; by_running.

(** The sixth wrong key of a fresh user is answered banned, not
    rate-limited for twelve seconds. *)
Lemma sixth_failure_bans :
  ("alice" ∉ banned_users fresh_shop) ∧
  failed_attempts fresh_shop !! "alice" = None ∧
  counted_failures hook fresh_shop "alice" seven_wrong_keys ∧
  snd (verify_series hook fresh_shop "alice" seven_wrong_keys) !! 5%nat
    = Some (Returned resp_banned) ∧
  snd (verify_series hook fresh_shop "alice" seven_wrong_keys) !! 5%nat
    ≠ Some (Returned (resp_blocked 12)).
Proof.
  split; [not_banned_by_running|].
  split; [by_running|].
  split.
  { cbn [counted_failures seven_wrong_keys].
    repeat (split; [first [discriminate | by_running | right; by_running
                          | left; banned_by_running]|]).
    exact I. }
  split; [by_running|].
  vm_compute. discriminate.
Qed.

(** The ladder on seven wrong keys for alice. *)
Lemma failure_ladder_witness :
  "alice" ≠ "" ∧
  ("alice" ∉ banned_users fresh_shop) ∧
  failed_attempts fresh_shop !! "alice" = None ∧
  counted_failures hook fresh_shop "alice" seven_wrong_keys ∧
  snd (verify_series hook fresh_shop "alice" seven_wrong_keys)
    = map (λ i, Returned (ladder i)) (seq 0 7) ∧
  "alice" ∈ banned_users (fst (verify_series hook fresh_shop "alice" seven_wrong_keys)).
Proof.
  assert (Hu : "alice" ≠ "") by discriminate.
  assert (Hb : "alice" ∉ banned_users fresh_shop) by not_banned_by_running.
  assert (Hf : failed_attempts fresh_shop !! "alice" = None) by by_running.
  assert (Hc : counted_failures hook fresh_shop "alice" seven_wrong_keys).
  { cbn [counted_failures seven_wrong_keys].
    repeat (split; [first [discriminate | by_running | right; by_running
                          | left; banned_by_running]|]).
    exact I. }
  destruct (failure_ladder hook fresh_shop "alice" seven_wrong_keys Hu Hb Hf Hc)
    as [Ho Hbanned].
  repeat (split; [assumption|]).
  apply Hbanned. simpl. lia.
Defined.

(** Alice, banned by six wrong keys, stays banned through the events of
    [after_the_ban], right key or not. *)
Lemma banned_until_unbanned_witness :
  "alice" ∈ banned_users (run hook fresh_shop six_failures) ∧
  (UnbanUser "alice" ∉ after_the_ban) ∧
  verify hook (run hook (run hook fresh_shop six_failures) after_the_ban)
         right_key (at_time (clock 800) true)
    = (run hook (run hook fresh_shop six_failures) after_the_ban,
       Returned resp_banned) ∧
  check_status (run hook (run hook fresh_shop six_failures) after_the_ban)
               (status_req "alice" "M1")
    = (run hook (run hook fresh_shop six_failures) after_the_ban,
       Returned resp_status_banned).
Proof.
  assert (Hb : "alice" ∈ banned_users (run hook fresh_shop six_failures))
    by banned_by_running.
  assert (Hn : UnbanUser "alice" ∉ after_the_ban).
  { unfold after_the_ban. intros H.
    repeat (apply elem_of_cons in H as [H|H]; [discriminate|]).
    by apply elem_of_nil in H. }
  split; [assumption|]. split; [assumption|].
  apply (banned_until_unbanned hook (run hook fresh_shop six_failures) "alice"
           after_the_ban ltac:(discriminate) Hb Hn);
    discriminate.
Defined.

(** Alice's first wrong key with the webhook down: 500 in place of the
    401 she gets with the webhook up. *)
Lemma notification_failure_replaces_decision_witness :
  ("alice" ∉ banned_users fresh_shop) ∧
  under_penalty fresh_shop "alice" (clock 100) = false ∧
  key_matches fresh_shop "alice" "BAD-KEY" = false ∧
  truthy hook = true ∧
  snd (verify hook fresh_shop wrong_key (at_time (clock 100) false))
    = Raised ConnectionError ∧
  respond (snd (verify hook fresh_shop wrong_key (at_time (clock 100) false)))
    = internal_error ∧
  snd (verify hook fresh_shop wrong_key (at_time (clock 100) true))
    = Returned resp_invalid_key.
Proof.
  assert (Hb : "alice" ∉ banned_users fresh_shop) by not_banned_by_running.
  assert (Hp : under_penalty fresh_shop "alice" (clock 100) = false)
    by by_running.
  assert (Hk : key_matches fresh_shop "alice" "BAD-KEY" = false) by by_running.
  assert (Hh : truthy hook = true) by by_running.
  destruct (notification_failure_replaces_decision hook fresh_shop
              "alice" "BAD-KEY" "M1" (at_time (clock 100) false)
              ltac:(discriminate) ltac:(discriminate) ltac:(discriminate)
              Hb Hp Hk Hh eq_refl) as (Hraised & H500 & _).
  repeat (split; [assumption|]).
  by_running.
Defined.

(** A state reached by six wrong keys holds alice in the ban set and in
    the penalty tracker at once. *)
Lemma banned_user_keeps_penalty_entry :
  ¬ (∀ s, reachable hook s →
       ∀ u, ¬ (u ∈ banned_users s ∧ is_Some (failed_attempts s !! u))).
Proof.
  intros H.
  apply (H (run hook fresh_shop six_failures)
           (reachable_run hook six_failures _ (reachable_boot hook _ _)) "alice").
  split; [banned_by_running|].
  exists (mkPenalty 6 (clock 500 + inject_Z 10)). by_running.
Qed.

(** The sixth wrong key bans alice and leaves her entry at count six. *)
Lemma ban_keeps_penalty_entry_witness :
  ("alice" ∉ banned_users (run hook fresh_shop five_failures)) ∧
  "alice" ∈ banned_users
    (fst (verify hook (run hook fresh_shop five_failures) wrong_key
            (at_time (clock 600) true))) ∧
  (∃ info,
     failed_attempts
       (fst (verify hook (run hook fresh_shop five_failures) wrong_key
               (at_time (clock 600) true))) !! "alice" = Some info ∧
     count info = 6) ∧
  fst (verify hook
         (fst (verify hook (run hook fresh_shop five_failures) wrong_key
                 (at_time (clock 600) true)))
         right_key (at_time (clock 700) true))
  = fst (verify hook (run hook fresh_shop five_failures) wrong_key
           (at_time (clock 600) true)).
Proof.
  assert (Hb : "alice" ∉ banned_users (run hook fresh_shop five_failures))
    by not_banned_by_running.
  assert (Hb' : "alice" ∈ banned_users
            (fst (verify hook (run hook fresh_shop five_failures) wrong_key
                    (at_time (clock 600) true))))
    by banned_by_running.
  destruct (ban_keeps_penalty_entry hook (run hook fresh_shop five_failures)
              "alice" "BAD-KEY" "M1" (at_time (clock 600) true) Hb Hb')
    as [(info & Hinfo & Hcount & _) Hfrozen].
  split; [assumption|]. split; [assumption|]. split.
  - exists info. split; [assumption|]. rewrite Hcount. by_running.
  - apply (Hfrozen "GOOD-KEY" "M1").
Defined.

(** With a penalty ending at [epoch + 5/2] and the clock at [epoch + 1],
    the answer carries one second, while [penalty_end - now] is 3/2. *)
Lemma remaining_time_is_truncated :
  ("alice" ∉ banned_users (run hook fresh_shop two_failures)) ∧
  failed_attempts (run hook fresh_shop two_failures) !! "alice"
    = Some (mkPenalty 2 (3400000005 # 2)) ∧
  (clock 1 < 3400000005 # 2)%Q ∧
  snd (verify hook (run hook fresh_shop two_failures) wrong_key
         (at_time (clock 1) true))
    = Returned (resp_blocked 1) ∧
  ¬ (inject_Z 1 == (3400000005 # 2) - clock 1)%Q.
Proof.
  split; [not_banned_by_running|].
  split; [by_running|].
  split; [reflexivity|].
  split; [by_running|].
  vm_compute. discriminate.
Qed.

(** Alice, one second into a penalty that ends at [epoch + 5/2]. *)
Lemma active_penalty_blocks_witness :
  ("alice" ∉ banned_users (run hook fresh_shop two_failures)) ∧
  failed_attempts (run hook fresh_shop two_failures) !! "alice"
    = Some (mkPenalty 2 (3400000005 # 2)) ∧
  (clock 1 < 3400000005 # 2)%Q ∧
  verify hook (run hook fresh_shop two_failures) wrong_key
         (at_time (clock 1) true)
    = (run hook fresh_shop two_failures, Returned (resp_blocked 1)).
Proof.
  assert (Hb : "alice" ∉ banned_users (run hook fresh_shop two_failures))
    by not_banned_by_running.
  assert (Hf : failed_attempts (run hook fresh_shop two_failures) !! "alice"
               = Some (mkPenalty 2 (3400000005 # 2))) by by_running.
  assert (Hlt : (clock 1 < 3400000005 # 2)%Q) by reflexivity.
  repeat (split; [assumption|]).
  apply (active_penalty_blocks hook (run hook fresh_shop two_failures)
           "alice" "BAD-KEY" "M1" (at_time (clock 1) true)
           (mkPenalty 2 (3400000005 # 2))
           ltac:(discriminate) ltac:(discriminate) ltac:(discriminate)
           Hb Hf Hlt).
Defined.

(** Alice, bound to M1, presents the right key from M2. *)
Lemma machine_mismatch_denied_witness :
  key_matches (run hook fresh_shop first_success) "alice" "GOOD-KEY" = true ∧
  machine_bindings (run hook fresh_shop first_success) !! "alice" = Some "M1" ∧
  "M1" ≠ "M2" ∧
  verify hook (run hook fresh_shop first_success)
         (verify_req "alice" "GOOD-KEY" "M2") (at_time (clock 200) true)
    = (run hook fresh_shop first_success, Returned resp_mismatch) ∧
  failed_attempts
    (fst (verify hook (run hook fresh_shop first_success)
            (verify_req "alice" "GOOD-KEY" "M2") (at_time (clock 200) true)))
    = failed_attempts (run hook fresh_shop first_success).
Proof.
  assert (Hk : key_matches (run hook fresh_shop first_success) "alice" "GOOD-KEY"
               = true) by by_running.
  assert (Hm : machine_bindings (run hook fresh_shop first_success) !! "alice"
               = Some "M1") by by_running.
  assert (Hne : "M1" ≠ "M2") by discriminate.
  destruct (machine_mismatch_denied hook (run hook fresh_shop first_success)
              "alice" "GOOD-KEY" "M2" "M1" (at_time (clock 200) true)
              ltac:(discriminate) ltac:(discriminate) ltac:(discriminate)
              Hk Hm Hne) as (_ & Hframe & Hdenied).
  repeat (split; [assumption|]).
  split; [|assumption].
  apply Hdenied; [not_banned_by_running | by_running].
Defined.

(** Alice, after two wrong keys and the end of her penalty, presents
    the right key from M1. *)
Lemma success_clears_penalty_witness :
  ("alice" ∉ banned_users (run hook fresh_shop two_failures)) ∧
  under_penalty (run hook fresh_shop two_failures) "alice" (clock 10) = false ∧
  key_matches (run hook fresh_shop two_failures) "alice" "GOOD-KEY" = true ∧
  machine_bindings (run hook fresh_shop two_failures) !! "alice" = None ∧
  view_failed_attempts (run hook fresh_shop two_failures) "alice" = 2 ∧
  snd (verify hook (run hook fresh_shop two_failures) right_key
         (at_time (clock 10) true)) = Returned resp_success ∧
  view_failed_attempts
    (fst (verify hook (run hook fresh_shop two_failures) right_key
            (at_time (clock 10) true))) "alice" = 0 ∧
  machine_bindings_file
    (fst (verify hook (run hook fresh_shop two_failures) right_key
            (at_time (clock 10) true))) !! "alice" = Some "M1".
Proof.
  assert (Hb : "alice" ∉ banned_users (run hook fresh_shop two_failures))
    by not_banned_by_running.
  assert (Hp : under_penalty (run hook fresh_shop two_failures) "alice"
                 (clock 10) = false) by by_running.
  assert (Hk : key_matches (run hook fresh_shop two_failures) "alice" "GOOD-KEY"
               = true) by by_running.
  assert (Hm : machine_bindings (run hook fresh_shop two_failures) !! "alice"
               = None) by by_running.
  destruct (success_clears_penalty hook (run hook fresh_shop two_failures)
              "alice" "GOOD-KEY" "M1" (at_time (clock 10) true)
              ltac:(discriminate) ltac:(discriminate) ltac:(discriminate)
              Hb Hp Hk (or_introl Hm))
    as (Hout & _ & Hzero & _ & Hnew & _).
  repeat (split; [assumption|]).
  split; [by_running|]. split; [assumption|]. split; [assumption|].
  destruct (Hnew Hm) as [_ Hfile].
  unfold right_key. rewrite Hfile. apply lookup_insert_eq.
Defined.

(** A status request for alice before she is bound. *)
Lemma check_status_pure_read_witness :
  machine_bindings fresh_shop !! "alice" = None ∧
  ("alice" ∉ banned_users fresh_shop) ∧
  fst (check_status fresh_shop (status_req "alice" "M1")) = fresh_shop ∧
  snd (check_status fresh_shop (status_req "alice" "M1"))
    = Returned resp_status_denied ∧
  snd (check_status fresh_shop (status_req "alice" "M1"))
    ≠ Returned resp_status_allowed.
Proof.
  assert (Hm : machine_bindings fresh_shop !! "alice" = None) by by_running.
  assert (Hb : "alice" ∉ banned_users fresh_shop) by not_banned_by_running.
  destruct (check_status_pure_read fresh_shop (status_req "alice" "M1"))
    as [Hpure Hrule].
  destruct (Hrule "alice" "M1" eq_refl ltac:(discriminate) ltac:(discriminate))
    as (_ & _ & _ & Hunbound).
  destruct (Hunbound Hm) as [Hnever Hdenied].
  repeat (split; [assumption|]).
  split; [by apply Hdenied | assumption].
Defined.

(** Alice's first success, repeated a second later. *)
Lemma verify_success_idempotent_witness :
  verify hook fresh_shop right_key (at_time (clock 100) true)
    = (run hook fresh_shop first_success, Returned resp_success) ∧
  verify hook (run hook fresh_shop first_success) right_key
         (at_time (clock 101) true)
    = (run hook fresh_shop first_success, Returned resp_success).
Proof.
  assert (H1 : verify hook fresh_shop right_key (at_time (clock 100) true)
               = (run hook fresh_shop first_success, Returned resp_success))
    by by_running.
  split; [assumption|].
  apply (verify_success_idempotent hook fresh_shop
           (run hook fresh_shop first_success) right_key
           (at_time (clock 100) true) (at_time (clock 101) true) H1).
Defined.

(** ** The further statements on sample data *)

Lemma distinct_ids (l : list Z) : bool_decide (NoDup l) = true → NoDup l.
Proof. apply bool_decide_eq_true_1. Qed.

Lemma absent_id (x : Z) (l : list Z) : bool_decide (x ∈ l) = false → x ∉ l.
Proof. apply bool_decide_eq_false_1. Qed.

(** A keyless request for alice, banned by six wrong keys. *)
Lemma missing_field_rejected_witness :
  truthy (v_key keyless) = false ∧
  "alice" ∈ banned_users (run hook fresh_shop six_failures) ∧
  verify hook (run hook fresh_shop six_failures) keyless (at_time (clock 700) true)
    = (run hook fresh_shop six_failures, Returned resp_missing).
Proof.
  split; [reflexivity|]. split; [banned_by_running|].
  apply (proj1 (missing_field_rejected hook (run hook fresh_shop six_failures)
                  keyless (status_req "alice" "M1") (at_time (clock 700) true))).
  right. left. reflexivity.
Defined.

(** Alice's first success, read backwards. *)
Lemma success_needs_license_and_machine_witness :
  verify hook fresh_shop right_key (at_time (clock 100) true)
    = (run hook fresh_shop first_success, Returned resp_success) ∧
  ∃ u k m lic, right_key = verify_req u k m ∧ u ≠ "" ∧ k ≠ "" ∧ m ≠ "" ∧
    licenses fresh_shop !! u = Some lic ∧ key lic = k ∧
    (u ∉ banned_users fresh_shop) ∧
    under_penalty fresh_shop u (now1 (at_time (clock 100) true)) = false ∧
    (machine_bindings fresh_shop !! u = None ∨
     machine_bindings fresh_shop !! u = Some m) ∧
    machine_bindings (run hook fresh_shop first_success) !! u = Some m ∧
    failed_attempts (run hook fresh_shop first_success) !! u = None ∧
    banned_users (run hook fresh_shop first_success) = banned_users fresh_shop.
Proof.
  assert (H : verify hook fresh_shop right_key (at_time (clock 100) true)
              = (run hook fresh_shop first_success, Returned resp_success))
    by by_running.
  split; [assumption|].
  apply (success_needs_license_and_machine hook _ _ _ _ H).
Defined.

(** Alice's right key on a server without licenses. *)
Lemma unlicensed_never_succeeds_witness :
  licenses empty_shop !! "alice" = None ∧
  snd (verify hook empty_shop right_key (at_time (clock 100) true))
    ≠ Returned resp_success.
Proof.
  assert (H : licenses empty_shop !! "alice" = None) by by_running.
  split; [assumption|].
  apply (proj1 (unlicensed_never_succeeds hook empty_shop "alice") H).
Defined.

(** Alice asks for her status right after her first success. *)
Lemma success_then_status_allowed_witness :
  verify hook fresh_shop (verify_req "alice" "GOOD-KEY" "M1")
         (at_time (clock 100) true)
    = (run hook fresh_shop first_success, Returned resp_success) ∧
  check_status (run hook fresh_shop first_success) (status_req "alice" "M1")
    = (run hook fresh_shop first_success, Returned resp_status_allowed).
Proof.
  assert (H : verify hook fresh_shop (verify_req "alice" "GOOD-KEY" "M1")
                (at_time (clock 100) true)
              = (run hook fresh_shop first_success, Returned resp_success))
    by by_running.
  split; [assumption|].
  apply (proj1 (success_then_status_allowed hook _ _ _ _ _ _ H)).
Defined.

(** Alice, bound to M1, through the events of [after_the_ban]. *)
Lemma binding_is_permanent_witness :
  machine_bindings (run hook fresh_shop first_success) !! "alice" = Some "M1" ∧
  machine_bindings (run hook (run hook fresh_shop first_success) after_the_ban)
    !! "alice" = Some "M1".
Proof.
  assert (H : machine_bindings (run hook fresh_shop first_success) !! "alice"
              = Some "M1") by by_running.
  split; [assumption|].
  apply (binding_is_permanent hook _ _ _ after_the_ban H).
Defined.

(** The state after six wrong keys. *)
Lemma reachable_invariants_witness :
  reachable hook (run hook fresh_shop six_failures) ∧
  machine_bindings_file (run hook fresh_shop six_failures)
    = machine_bindings (run hook fresh_shop six_failures) ∧
  ∀ u info,
    failed_attempts (run hook fresh_shop six_failures) !! u = Some info →
    1 ≤ count info.
Proof.
  assert (H : reachable hook (run hook fresh_shop six_failures)).
  { apply reachable_run. apply reachable_boot. }
  split; [assumption|].
  apply (reachable_invariants hook _ H).
Defined.

(** Alice's sixth wrong key with the webhook down: counted and banned. *)
Lemma failed_post_still_counts_witness :
  ("alice" ∉ banned_users (run hook fresh_shop five_failures)) ∧
  under_penalty (run hook fresh_shop five_failures) "alice" (clock 600) = false ∧
  key_matches (run hook fresh_shop five_failures) "alice" "BAD-KEY" = false ∧
  truthy hook = true ∧
  view_failed_attempts
    (fst (verify hook (run hook fresh_shop five_failures) wrong_key
            (at_time (clock 600) false))) "alice" = 6 ∧
  "alice" ∈ banned_users
    (fst (verify hook (run hook fresh_shop five_failures) wrong_key
            (at_time (clock 600) false))).
Proof.
  assert (Hb : "alice" ∉ banned_users (run hook fresh_shop five_failures))
    by not_banned_by_running.
  assert (Hp : under_penalty (run hook fresh_shop five_failures) "alice"
                 (clock 600) = false) by by_running.
  assert (Hk : key_matches (run hook fresh_shop five_failures) "alice" "BAD-KEY"
               = false) by by_running.
  assert (Hh : truthy hook = true) by by_running.
  destruct (failed_post_still_counts hook (run hook fresh_shop five_failures)
              "alice" "BAD-KEY" "M1" (at_time (clock 600) false)
              ltac:(discriminate) ltac:(discriminate) ltac:(discriminate)
              Hb Hp Hk Hh eq_refl) as (Hc & Hban & _).
  split; [assumption|]. split; [assumption|].
  split; [assumption|]. split; [assumption|].
  split.
  - unfold wrong_key. rewrite Hc. by_running.
  - apply Hban. by_running.
Defined.

(** Alice's wrong key and bob's standing. *)
Lemma verify_leaves_others_witness :
  "bob" ≠ "alice" ∧
  failed_attempts (fst (verify hook fresh_shop wrong_key (at_time (clock 100) true)))
    !! "bob" = failed_attempts fresh_shop !! "bob".
Proof.
  assert (H : "bob" ≠ "alice") by discriminate.
  split; [assumption|].
  apply (proj1 (verify_leaves_others hook fresh_shop "alice" "BAD-KEY" "M1" "bob"
                  (at_time (clock 100) true) H)).
Defined.

(** Alice, banned by six wrong keys and unbanned, sends a seventh. *)
Lemma unban_without_reset_rebans_witness :
  5 ≤ view_failed_attempts (run hook fresh_shop six_failures) "alice" ∧
  under_penalty (run hook fresh_shop six_failures) "alice" (clock 700) = false ∧
  key_matches (run hook fresh_shop six_failures) "alice" "BAD-KEY" = false ∧
  notifier_ok hook (at_time (clock 700) true) = true ∧
  snd (verify hook (unban_user (run hook fresh_shop six_failures) "alice")
         wrong_key (at_time (clock 700) true)) = Returned resp_banned.
Proof.
  assert (Hc : 5 ≤ view_failed_attempts (run hook fresh_shop six_failures) "alice")
    by (vm_compute; discriminate).
  assert (Hp : under_penalty (run hook fresh_shop six_failures) "alice"
                 (clock 700) = false) by by_running.
  assert (Hk : key_matches (run hook fresh_shop six_failures) "alice" "BAD-KEY"
               = false) by by_running.
  assert (Hn : notifier_ok hook (at_time (clock 700) true) = true) by by_running.
  repeat (split; [assumption|]).
  apply (unban_without_reset_rebans hook (run hook fresh_shop six_failures)
           "alice" "BAD-KEY" "M1" (at_time (clock 700) true)
           ltac:(discriminate) ltac:(discriminate) ltac:(discriminate)
           Hc Hp Hk Hn).
Defined.

(** Alice after five wrong keys and a reset, while her penalty of ten
    seconds would still run. *)
Lemma reset_penalty_forgives_witness :
  ("alice" ∉ banned_users (run hook fresh_shop five_failures)) ∧
  under_penalty (run hook fresh_shop five_failures) "alice" (clock 501) = true ∧
  key_matches (run hook fresh_shop five_failures) "alice" "BAD-KEY" = false ∧
  notifier_ok hook (at_time (clock 501) true) = true ∧
  snd (verify hook (reset_penalty (run hook fresh_shop five_failures) "alice")
         wrong_key (at_time (clock 501) true)) = Returned resp_invalid_key.
Proof.
  assert (Hb : "alice" ∉ banned_users (run hook fresh_shop five_failures))
    by not_banned_by_running.
  assert (Hk : key_matches (run hook fresh_shop five_failures) "alice" "BAD-KEY"
               = false) by by_running.
  assert (Hn : notifier_ok hook (at_time (clock 501) true) = true) by by_running.
  split; [assumption|]. split; [by_running|].
  split; [assumption|]. split; [assumption|].
  apply (reset_penalty_forgives hook (run hook fresh_shop five_failures)
           "alice" "BAD-KEY" "M1" (at_time (clock 501) true)
           ltac:(discriminate) ltac:(discriminate) ltac:(discriminate)
           Hb Hk Hn).
Defined.

(** Alice's key is changed; she is unbound and in good standing. *)
Lemma update_license_switches_key_witness :
  licenses fresh_shop !! "alice" = Some (mkLicense "GOOD-KEY") ∧
  "GOOD-KEY" ≠ "NEW-KEY" ∧
  ("alice" ∉ banned_users fresh_shop) ∧
  under_penalty fresh_shop "alice" (clock 100) = false ∧
  machine_bindings fresh_shop !! "alice" = None ∧
  snd (verify hook (update_license fresh_shop "alice" "NEW-KEY")
         (verify_req "alice" "NEW-KEY" "M1") (at_time (clock 100) true))
    = Returned resp_success ∧
  snd (verify hook (update_license fresh_shop "alice" "NEW-KEY")
         (verify_req "alice" "GOOD-KEY" "M1") (at_time (clock 100) true))
    ≠ Returned resp_success.
Proof.
  assert (Hl : licenses fresh_shop !! "alice" = Some (mkLicense "GOOD-KEY"))
    by by_running.
  assert (Hne : key (mkLicense "GOOD-KEY") ≠ "NEW-KEY") by discriminate.
  assert (Hb : "alice" ∉ banned_users fresh_shop) by not_banned_by_running.
  assert (Hp : under_penalty fresh_shop "alice" (clock 100) = false) by by_running.
  assert (Hm : machine_bindings fresh_shop !! "alice" = None) by by_running.
  destruct (update_license_switches_key hook fresh_shop "alice" "NEW-KEY" "M1"
              (mkLicense "GOOD-KEY") (at_time (clock 100) true)
              ltac:(discriminate) ltac:(discriminate) ltac:(discriminate)
              Hl Hne Hb Hp (or_introl Hm)) as [Hnew Hold].
  split; [assumption|]. split; [assumption|]. split; [assumption|].
  split; [assumption|]. split; [assumption|]. split; [assumption|].
  apply (Hold "M1" (at_time (clock 100) true)).
Defined.

(** Bob is banned by the operator and unbanned again. *)
Lemma ban_unban_round_trip_witness :
  ("bob" ∉ banned_users fresh_shop) ∧
  unban_user (ban_user fresh_shop "bob") "bob" = fresh_shop.
Proof.
  assert (Hb : "bob" ∉ banned_users fresh_shop) by not_banned_by_running.
  split; [assumption|].
  apply (proj1 (ban_unban_round_trip fresh_shop "bob") Hb).
Defined.


(** Two admins from the file; 33 joins, 11 leaves. *)
Lemma admins_stay_distinct_and_saved_witness :
  NoDup (admins two_admins) ∧
  admins_file two_admins = Some (admins two_admins) ∧
  NoDup (admins (add_admin two_admins 33)) ∧
  admins_file (remove_admin two_admins 11)
    = Some (admins (remove_admin two_admins 11)).
Proof.
  assert (Hnd : NoDup (admins two_admins)).
  { apply distinct_ids. by_running. }
  assert (Hf : admins_file two_admins = Some (admins two_admins)) by reflexivity.
  destruct (admins_stay_distinct_and_saved two_admins 33) as [Hd _].
  destruct (admins_stay_distinct_and_saved two_admins 11) as [_ Hs].
  split; [assumption|]. split; [assumption|].
  split; [apply (Hd Hnd) | apply (Hs Hf)].
Defined.

Lemma add_remove_admin_witness :
  NoDup (admins two_admins) ∧ (33 ∉ admins two_admins) ∧
  is_admin (remove_admin two_admins 11) 11 = false ∧
  admins (remove_admin (add_admin two_admins 33) 33) = admins two_admins.
Proof.
  assert (Hnd : NoDup (admins two_admins)).
  { apply distinct_ids. by_running. }
  assert (Hx : 33 ∉ admins two_admins).
  { apply absent_id. by_running. }
  destruct (add_remove_admin two_admins 11) as (_ & Hrem & _).
  destruct (add_remove_admin two_admins 33) as (_ & _ & _ & Hround & _).
  split; [assumption|]. split; [assumption|].
  split; [apply (Hrem Hnd) | apply (Hround Hx)].
Defined.

(** The textbook exchange: p = 23, g = 5, the client's secret 6, the
    server's draw 15. *)
Lemma exchange_in_range_witness :
  2 ≤ 23 ∧ 1 ≤ 15 ≤ 23 - 1 ∧
  ∃ B K, diffie_hellman 23 5 8 15 = ExchangeResult B K ∧
         0 ≤ B < 23 ∧ 0 ≤ K < 23.
Proof.
  assert (H : 2 ≤ 23) by lia.
  assert (Hb : 1 ≤ 15 ≤ 23 - 1) by lia.
  split; [assumption|]. split; [assumption|].
  apply (proj1 (exchange_in_range 23 5 8 15) H Hb).
Defined.

Lemma exchange_agrees_witness :
  2 ≤ 23 ∧ 0 ≤ 6 ∧ 1 ≤ 15 ≤ 23 - 1 ∧
  ∃ B K, diffie_hellman 23 5 (py_pow 5 6 23) 15 = ExchangeResult B K ∧
         py_pow B 6 23 = K.
Proof.
  assert (H1 : 2 ≤ 23) by lia.
  assert (H2 : 0 ≤ 6) by lia.
  assert (H3 : 1 ≤ 15 ≤ 23 - 1) by lia.
  split; [assumption|]. split; [assumption|]. split; [assumption|].
  apply (exchange_agrees 23 5 6 15 H1 H2 H3).
Defined.

(** Twenty-three licenses: the third page has the last three. *)
Lemma list_licenses_pages_witness :
  1 ≤ 3 ∧ 10 * (3 - 1) < Z.of_nat (length many_items) ∧
  list_licenses many_items 3 = Page 3 3 (drop 20 many_items) ∧
  list_licenses many_items 4 = InvalidPage 3.
Proof.
  assert (H1 : 1 ≤ 3) by lia.
  assert (H2 : 10 * (3 - 1) < Z.of_nat (length many_items))
    by (vm_compute; reflexivity).
  destruct (list_licenses_pages many_items 3) as ((Hp & _) & _); [exact H1|exact H2|].
  destruct (list_licenses_pages many_items 4) as (_ & Hinv & _).
  split; [assumption|]. split; [assumption|].
  split; [exact Hp|]. apply Hinv. right. vm_compute. discriminate.
Defined.

Lemma list_licenses_locates_witness :
  many_items !! 21%nat = Some ("V", mkLicense "K") ∧
  ∃ total entries,
    list_licenses many_items 3 = Page 3 total entries ∧
    entries !! 1%nat = Some ("V", mkLicense "K").
Proof.
  assert (H : many_items !! 21%nat = Some ("V", mkLicense "K")) by by_running.
  split; [assumption|].
  apply (list_licenses_locates many_items 21 _ H).
Defined.

(** Bob gets a generated key and presents it. *)
Lemma generated_key_verifies_witness :
  licenses fresh_shop !! "bob" = None ∧
  ("bob" ∉ banned_users fresh_shop) ∧
  under_penalty fresh_shop "bob" (clock 100) = false ∧
  machine_bindings fresh_shop !! "bob" = None ∧
  snd (verify hook
         (generate_license fresh_shop "bob" (generate_license_key sample_picks))
         (verify_req "bob" (generate_license_key sample_picks) "M7")
         (at_time (clock 100) true))
    = Returned resp_success.
Proof.
  assert (Hl : licenses fresh_shop !! "bob" = None) by by_running.
  assert (Hb : "bob" ∉ banned_users fresh_shop) by not_banned_by_running.
  assert (Hp : under_penalty fresh_shop "bob" (clock 100) = false) by by_running.
  assert (Hm : machine_bindings fresh_shop !! "bob" = None) by by_running.
  split; [assumption|]. split; [assumption|]. split; [assumption|].
  split; [assumption|].
  apply (proj2 (generated_key_verifies hook fresh_shop "bob" "M7" sample_picks
                  (at_time (clock 100) true))
           ltac:(discriminate) ltac:(discriminate) Hl Hb Hp (or_introl Hm)).
Defined.
